(** * The PERT distribution of [tensorflow_probability/python/distributions/pert.py]

    A shallow embedding of the class [PERT]: its constructor, its
    validation hook [_parameter_control_dependencies], its analytic
    overrides and its read-only properties, followed by the properties
    proved about them.

    Tensors are followed one broadcast element at a time: a value of the
    element type [T] stands for one element of a tensor of the common dtype.
    The arithmetic of the dtype is an interface ([Dtype]) with two
    instances: exact rationals, and binary32 (the dtype the constructor falls
    back to, [tf.float32]) built on the specification of floating-point
    numbers of the standard library.  Execution is eager: an assertion that
    fails raises where it is made. *)

From Stdlib Require Import ZArith QArith Qabs Bool List String Lia Lqa.
From Stdlib Require Import Floats.SpecFloat.
Import ListNotations.

Set Implicit Arguments.

(** ** Element arithmetic *)

(** A finite Python float, [mantissa * 2 ** exponent]. *)
Record pyfloat : Type := {
  mantissa : Z;
  exponent : Z
}.

(** The Python float of a whole number. *)
Definition whole (z : Z) : pyfloat := {| mantissa := z; exponent := 0 |}.

(** The operations [pert.py] applies to tensor elements: the conversion
    of a Python number to the dtype ([tf.convert_to_tensor]), the float
    literals [1.] and [3.] (and [0] inside [assert_positive]), the four
    arithmetic operators and the comparison behind [assert_greater]. *)
Class Dtype (T : Type) : Type := {
  cast : pyfloat -> T;
  lit : Z -> T;
  add : T -> T -> T;
  sub : T -> T -> T;
  mul : T -> T -> T;
  div : T -> T -> T;
  greater : T -> T -> bool
}.

(** Exact arithmetic on rationals. *)
#[export] Instance exact : Dtype Q := {
  cast := fun x => inject_Z (mantissa x) * Qpower 2 (exponent x);
  lit := inject_Z;
  add := Qplus;
  sub := Qminus;
  mul := Qmult;
  div := Qdiv;
  greater := fun x y => negb (Qle_bool x y)
}.

(** IEEE 754 binary32, round to nearest even: precision 24, [emax] 128. *)
Definition float32 : Type := spec_float.

Definition f32_prec : Z := 24.
Definition f32_emax : Z := 128.

Definition f32_of_Z (z : Z) : float32 :=
  binary_normalize f32_prec f32_emax z 0 false.

(** The kernels run with flush-to-zero and denormals-are-zero set: a
    subnormal number, one below [2 ** -126] in magnitude, counts as a zero
    of its sign, as an operand and as a result. *)
Definition flush (x : float32) : float32 :=
  match x with
  | S754_finite s m e =>
      if (Z.pos (digits2_pos m) + e <? -125)%Z then S754_zero s else x
  | _ => x
  end.

Definition flushed (op : float32 -> float32 -> float32)
    (x y : float32) : float32 :=
  flush (op (flush x) (flush y)).

#[export] Instance binary32 : Dtype float32 := {
  cast := fun x =>
    binary_normalize f32_prec f32_emax (mantissa x) (exponent x) false;
  lit := f32_of_Z;
  add := flushed (SFadd f32_prec f32_emax);
  sub := flushed (SFsub f32_prec f32_emax);
  mul := flushed (SFmul f32_prec f32_emax);
  div := flushed (SFdiv f32_prec f32_emax);
  greater := fun x y => SFltb (flush y) (flush x)
}.

(** The rational a finite binary float denotes; [None] for infinities
    and NaN. *)
Definition f32_value (x : float32) : option Q :=
  match x with
  | S754_zero _ => Some 0
  | S754_finite s m e =>
      let mag := inject_Z (Z.pos m) * Qpower 2 e in
      Some (if s then - mag else mag)
  | S754_infinity _ | S754_nan => None
  end.

(** [x] is a binary32 number nearest to the rational [q]: a finite, valid
    float within half a unit in the last place of [q]. *)
Definition f32_nearest (q : Q) (x : float32) : Prop :=
  valid_binary f32_prec f32_emax x = true /\
  match x with
  | S754_finite _ _ e =>
      exists v, f32_value x = Some v /\ Qabs (v - q) <= Qpower 2 (e - 1)
  | _ => False
  end.

(** ** Exceptions *)

Inductive exn : Type :=
| AttributeError (attr : string)
| ValueError (msg : string)
| InvalidArgumentError (msg : string)
| TypeError
| NotImplementedError
| RecursionError.

Inductive result (A : Type) : Type :=
| Ok (a : A)
| Raise (e : exn).

Arguments Ok {A} a.
Arguments Raise {A} e.

Definition bind {A B : Type} (r : result A) (k : A -> result B) : result B :=
  match r with
  | Ok a => k a
  | Raise e => Raise e
  end.

(** A computation that calls [assert_util]: the checks it has made, in
    order, and what it returned or raised. *)
Record checked (A : Type) : Type := {
  made : list string;
  outcome : result A
}.

Definition ret {A : Type} (a : A) : checked A :=
  {| made := []; outcome := Ok a |}.

Definition and_then {A B : Type} (c : checked A) (k : A -> checked B)
    : checked B :=
  match outcome c with
  | Ok a => {| made := made c ++ made (k a); outcome := outcome (k a) |}
  | Raise e => {| made := made c; outcome := Raise e |}
  end.

(** The exception a computation stopped on, if it did. *)
Definition raised {A : Type} (c : checked A) : option exn :=
  match outcome c with
  | Ok _ => None
  | Raise e => Some e
  end.

(** ** Tensors and references *)

Section Model.

Variable T : Type.
Context {D : Dtype T}.

(** A parameter is a Python number, a tensor (a fixed value of the
    dtype) or a reference to a mutable [tf.Variable], whose current value
    lives in the store. *)
Definition var : Type := nat.

Inductive tensorlike : Type :=
| PyFloat (x : pyfloat)
| Tensor (v : T)
| TfVariable (x : var).

Definition store : Type := var -> T.

(** The element an operation sees: a Python number is converted to the
    dtype of the tensor it meets. *)
Definition read (st : store) (p : tensorlike) : T :=
  match p with
  | PyFloat x => cast x
  | Tensor v => v
  | TfVariable x => st x
  end.

(** [tensor_util.is_ref] *)
Definition is_ref (p : tensorlike) : bool :=
  match p with
  | TfVariable _ => true
  | PyFloat _ | Tensor _ => false
  end.

(** [tensor_util.convert_nonref_to_tensor]: a reference is kept as it
    is, anything else becomes a tensor of [dtype]; a Python number is
    rounded to the dtype there. *)
Definition convert_nonref_to_tensor (x : tensorlike) : tensorlike :=
  match x with
  | TfVariable r => TfVariable r
  | Tensor v => Tensor v
  | PyFloat n => Tensor (cast n)
  end.

(** ** The class *)

(** The collaborators handed to [super().__init__]. *)
Record Beta : Type := {
  beta_concentration1 : tensorlike;
  beta_concentration0 : tensorlike;
  beta_allow_nan_stats : bool
}.

Record AffineScalar : Type := {
  shift : tensorlike;
  affine_scale : tensorlike
}.

(** What [with tf.name_scope(name) as name] binds: the scope opened for
    the given name, which is what the base class receives as the name. *)
Inductive scope_name : Type :=
| OpenedFor (given : string).

(** The attributes [__init__] sets on [self], and what it passes on to
    the base class. *)
Record PERT : Type := {
  _min : tensorlike;
  _mod : tensorlike;
  _max : tensorlike;
  _smoothness : tensorlike;
  _concentration1 : tensorlike;
  _concentration0 : tensorlike;
  _scale : tensorlike;
  distribution : Beta;
  bijector : AffineScalar;
  validate_args : bool;
  name : scope_name
}.

(** The names bound in the body of [class PERT], in source order. *)
Definition PERT_namespace : list string :=
  [ "__init__"; "_batch_shape_tensor"; "_parameter_control_dependencies";
    "_survivial_function"; "_variance"; "_stddev"; "_mode";
    "minimum"; "maximum"; "smoothness"; "loc"; "scale";
    "concentration0"; "concentration1" ]%string.

Definition defined_in_class (attr : string) : bool :=
  existsb (String.eqb attr) PERT_namespace.

(** Reading an attribute that the instance does not hold yet: Python
    falls back to the class, and raises when the class has none either. *)
Definition getattr_class (attr : string) : result unit :=
  if defined_in_class attr then Ok tt else Raise (AttributeError attr).

(** Arithmetic between tensor-likes reads the current values and yields
    a tensor. *)
Definition tl_add (st : store) (a b : tensorlike) : tensorlike :=
  Tensor (add (read st a) (read st b)).
Definition tl_sub (st : store) (a b : tensorlike) : tensorlike :=
  Tensor (sub (read st a) (read st b)).
Definition tl_mul (st : store) (a b : tensorlike) : tensorlike :=
  Tensor (mul (read st a) (read st b)).
Definition tl_div (st : store) (a b : tensorlike) : tensorlike :=
  Tensor (div (read st a) (read st b)).

(** *** Properties *)

Definition minimum (self : PERT) : tensorlike := _min self.
Definition maximum (self : PERT) : tensorlike := _max self.
Definition smoothness (self : PERT) : tensorlike := _smoothness self.
Definition loc (self : PERT) : tensorlike := _min self.
Definition scale (self : PERT) : tensorlike := _scale self.
Definition concentration0 (self : PERT) : tensorlike := _concentration0 self.
Definition concentration1 (self : PERT) : tensorlike := _concentration1 self.

(** *** Validation *)

(** What a check that holds hands back to be collected. *)
Record assertion : Type := {
  message : string
}.

(** [assert_util.assert_greater] and [assert_util.assert_positive]: the
    check is made at the call; when the condition is false the call raises
    the InvalidArgument failure with the given message. *)
Definition assert_greater (x y : T) (msg : string) : checked assertion :=
  {| made := [msg];
     outcome := if greater x y then Ok {| message := msg |}
                else Raise (InvalidArgumentError msg) |}.

Definition assert_positive (x : T) (msg : string) : checked assertion :=
  {| made := [msg];
     outcome := if greater x (lit 0) then Ok {| message := msg |}
                else Raise (InvalidArgumentError msg) |}.

Definition msg_mode : string := "Mode must be greater than minimum.".
Definition msg_maximum : string := "Maximum must be greater than mode.".
Definition msg_smoothness : string := "Smoothness parameter must be positive.".

(** The guard [is_init != tensor_util.is_ref(x)]: at construction it
    selects the fixed values, afterwards the references. *)
Definition gate (is_init : bool) (x : tensorlike) : bool :=
  xorb is_init (is_ref x).

(** [assertions.append(check)] *)
Definition append (assertions : list assertion) (check : checked assertion)
    : checked (list assertion) :=
  and_then check (fun a => ret (assertions ++ [a])).

(** [PERT._parameter_control_dependencies] *)
Definition _parameter_control_dependencies (self : PERT) (st : store)
    (is_init : bool) : checked (list assertion) :=
  if negb (validate_args self) then ret []
  else
    let assertions := [] in
    and_then
      (if gate is_init (_mod self) then
         and_then
           (if gate is_init (_min self) then
              append assertions
                (assert_greater (read st (_mod self)) (read st (_min self))
                   msg_mode)
            else ret assertions)
           (fun assertions =>
              if gate is_init (_max self) then
                append assertions
                  (assert_greater (read st (_max self)) (read st (_mod self))
                     msg_maximum)
              else ret assertions)
       else ret assertions)
      (fun assertions =>
         if gate is_init (_smoothness self) then
           append assertions
             (assert_positive (read st (_smoothness self)) msg_smoothness)
         else ret assertions).

(** The checks a run has made, by message. *)
Definition performed {A : Type} (run : checked A) : list string := made run.

(** The message of the check a run failed on, if it failed on one. *)
Definition failure {A : Type} (run : checked A) : option string :=
  match raised run with
  | Some (InvalidArgumentError msg) => Some msg
  | _ => None
  end.

(** *** Construction *)

(** Modelled from the spec: the constructor of the base class, which is
    not part of the file.  Validation runs at construction: the base class
    asks [_parameter_control_dependencies(is_init=True)], and a check that
    fails there stops the construction. *)
Definition super___init__ (self : PERT) (st : store) : result unit :=
  bind (outcome (_parameter_control_dependencies self st true))
       (fun _ => Ok tt).

(** [PERT.__init__], run in the store [st].  The bare expression
    [self._mode] on the line after [self._min] is set looks the attribute
    up and drops the result.  The batch shape of one element is the empty
    shape, so [tf.broadcast_to] returns the scale as it is. *)
Definition __init__ (st : store) (mini mode maxi smoothness : tensorlike)
    (validate_args0 allow_nan_stats : bool) (name0 : string) : result PERT :=
  let name1 := OpenedFor name0 in
  let _min0 := convert_nonref_to_tensor mini in
  bind (getattr_class "_mode") (fun _ =>
  let _mod0 := convert_nonref_to_tensor mode in
  let _max0 := convert_nonref_to_tensor maxi in
  let _smoothness0 := convert_nonref_to_tensor smoothness in
  let _concentration10 :=
    tl_add st (Tensor (lit 1))
      (tl_div st (tl_mul st _smoothness0 (tl_sub st _mod0 _min0))
                 (tl_sub st _max0 _min0)) in
  let _concentration00 :=
    tl_add st (Tensor (lit 1))
      (tl_div st (tl_mul st _smoothness0 (tl_sub st _max0 _mod0))
                 (tl_sub st _max0 _min0)) in
  let _scale0 := tl_sub st _max0 _min0 in
  let self :=
    {| _min := _min0;
       _mod := _mod0;
       _max := _max0;
       _smoothness := _smoothness0;
       _concentration1 := _concentration10;
       _concentration0 := _concentration00;
       _scale := _scale0;
       distribution :=
         {| beta_concentration1 := _concentration10;
            beta_concentration0 := _concentration00;
            beta_allow_nan_stats := allow_nan_stats |};
       bijector := {| shift := _min0; affine_scale := _scale0 |};
       validate_args := validate_args0;
       name := name1 |} in
  bind (super___init__ self st) (fun _ => Ok self)).

End Model.

Arguments PyFloat {T} x.
Arguments TfVariable {T} x.

(** ** The query surface *)

(** The failure of [tf.name_scope] on a name it does not take. *)
Definition scope_error : exn :=
  ValueError "name for name_scope must be a string.".

Section Queries.

Variable T : Type.
Context {D : Dtype T}.

(** The keywords of a call, [**kwargs]. *)
Definition kwargs : Type := list (string * tensorlike T).

(** A Python value in argument position. *)
Inductive pyarg : Type :=
| PyTensor (t : tensorlike T)
| PyStr (s : string)
| PyDict (d : kwargs).

(** [tf.sqrt], on one element. *)
Variable sqrt : T -> T.

(** Whether [tf.name_scope] takes the value as the name of an op. *)
Variable name_scope : pyarg -> bool.

(** The methods of the base class, which answer for the composed
    distribution (the affine transform of the Beta distribution), by
    attribute name. *)
Variable inherited :
  string -> PERT T -> store T -> list (tensorlike T) -> kwargs ->
  result (tensorlike T).

(** What [self.<query>(positional..., **keywords)] resolves to inside a
    method body. *)
Definition self_call : Type :=
  string -> list pyarg -> kwargs -> result (tensorlike T).

(** [PERT._survivial_function] *)
Definition _survivial_function (call : self_call) (self : PERT T)
    (st : store T) (value : tensorlike T) (kw : kwargs)
    : result (tensorlike T) :=
  bind (call "cdf"%string [PyTensor value; PyDict kw] [])
       (fun c => Ok (tl_sub st (Tensor (lit 1)) c)).

(** [PERT._variance] *)
Definition _variance (call : self_call) (self : PERT T) (st : store T)
    (kw : kwargs) : result (tensorlike T) :=
  bind (call "mean"%string [] [])
       (fun mean =>
          Ok (tl_div st
                (tl_mul st (tl_sub st mean (_min self))
                           (tl_sub st (_max self) mean))
                (tl_add st (_smoothness self) (Tensor (lit 3))))).

(** [PERT._stddev] *)
Definition _stddev (call : self_call) (self : PERT T) (st : store T)
    (kw : kwargs) : result (tensorlike T) :=
  bind (call "variance"%string [PyDict kw] [])
       (fun v => Ok (Tensor (sqrt (read st v)))).

(** [PERT._mode] *)
Definition _mode (call : self_call) (self : PERT T) (st : store T)
    (kw : kwargs) : result (tensorlike T) :=
  Ok (_mod self).

(** A method as the class dictionary holds it: it receives [self] (with
    the calls [self] answers), the positional values and the keywords. *)
Definition method : Type :=
  self_call -> PERT T -> store T -> list (tensorlike T) -> kwargs ->
  result (tensorlike T).

(** [def m(self, **kwargs)] *)
Definition no_positional
    (f : self_call -> PERT T -> store T -> kwargs -> result (tensorlike T))
    : method :=
  fun call self st values kw =>
    match values with
    | [] => f call self st kw
    | _ => Raise TypeError
    end.

(** [def m(self, value, **kwargs)] *)
Definition one_positional
    (f : self_call -> PERT T -> store T -> tensorlike T -> kwargs ->
         result (tensorlike T))
    : method :=
  fun call self st values kw =>
    match values with
    | [value] => f call self st value kw
    | _ => Raise TypeError
    end.

(** The methods of [class PERT] that take part in queries, under the
    names the class body gives them. *)
Definition PERT_dict : list (string * method) :=
  [ ("_survivial_function", one_positional _survivial_function);
    ("_variance", no_positional _variance);
    ("_stddev", no_positional _stddev);
    ("_mode", no_positional _mode) ]%string.

Fixpoint lookup (attr : string) (dict : list (string * method))
    : option method :=
  match dict with
  | [] => None
  | (k, m) :: rest => if String.eqb attr k then Some m else lookup attr rest
  end.

(** The queries that take a value before the optional name. *)
Definition value_queries : list string :=
  [ "prob"; "log_prob"; "cdf"; "survival_function" ]%string.

(** Binding of the positional arguments of a query: the value, for a
    query that takes one, then the name of the op, which defaults to the
    name of the query. *)
Definition bind_arguments (q : string) (args : list pyarg)
    : result (list (tensorlike T) * pyarg) :=
  if existsb (String.eqb q) value_queries then
    match args with
    | [PyTensor v] => Ok ([v], PyStr q)
    | [PyTensor v; n] => Ok ([v], n)
    | _ => Raise TypeError
    end
  else
    match args with
    | [] => Ok ([], PyStr q)
    | [n] => Ok ([], n)
    | _ => Raise TypeError
    end.

(** Modelled from the spec: the query surface [PERT] inherits from the
    distribution framework (the base classes are not part of the file).
    A query [q] is answered by the method [_q]: the one [PERT] defines
    under that name when there is one, and the composed distribution's
    otherwise.  The base class opens a name scope for the op first, so the
    name has to be one [tf.name_scope] takes, and then validates again, on
    every access: it asks [_parameter_control_dependencies(is_init=False)],
    and a check that fails there stops the query.  [fuel] bounds the depth
    of nested calls, as Python's recursion limit does. *)
Fixpoint query (fuel : nat) (self : PERT T) (st : store T) (q : string)
    (args : list pyarg) (kw : kwargs) {struct fuel}
    : result (tensorlike T) :=
  match fuel with
  | O => Raise RecursionError
  | S fuel' =>
      bind (bind_arguments q args)
        (fun bound =>
           if name_scope (snd bound) then
             bind (outcome (_parameter_control_dependencies self st false))
               (fun _ =>
                  match lookup ("_" ++ q) PERT_dict with
                  | Some own =>
                      own (query fuel' self st) self st (fst bound) kw
                  | None => inherited ("_" ++ q) self st (fst bound) kw
                  end)
           else Raise scope_error)
  end.

End Queries.

Arguments PyTensor [T] t.
Arguments PyStr {T} s.
Arguments PyDict [T] d.

(** ** Concrete surroundings *)

(** [tf.name_scope] as TensorFlow has it: the name of a scope has to be a
    string. *)
Definition tf_name_scope {T : Type} (n : pyarg T) : bool :=
  match n with
  | PyStr _ => true
  | _ => false
  end.

(** A composed distribution that answers [_mean] with the mean of the
    affine transform of the Beta distribution,
    [shift + scale * concentration1 / (concentration1 + concentration0)],
    and leaves every other query to its own base class. *)
Definition composed {T : Type} {D : Dtype T} (attr : string)
    (self : PERT T) (st : store T) (values : list (tensorlike T))
    (kw : kwargs T) : result (tensorlike T) :=
  if String.eqb attr "_mean" then
    match values with
    | [] =>
        let b := distribution self in
        Ok (tl_add st (shift (bijector self))
              (tl_mul st (affine_scale (bijector self))
                 (tl_div st (beta_concentration1 b)
                    (tl_add st (beta_concentration1 b)
                               (beta_concentration0 b)))))
    | _ => Raise TypeError
    end
  else Raise NotImplementedError.


(** A program without [tf.Variable]s: every cell reads zero. *)
Definition no_variables {T : Type} {D : Dtype T} : store T :=
  fun _ => lit 0.

(** [PERT(mini=1., mode=7., maxi=11., smoothness=4.)], the example of
    the class docstring. *)
Definition standard (T : Type) {D : Dtype T} (validate : bool)
    : result (PERT T) :=
  __init__ no_variables (PyFloat (whole 1)) (PyFloat (whole 7))
    (PyFloat (whole 11)) (PyFloat (whole 4)) validate false "PERT".

Arguments standard T {D} validate.

(** [2 ** -30] *)
Definition tiny : pyfloat := {| mantissa := 1; exponent := -30 |}.

(** [PERT(mini=0., mode=1., maxi=2., smoothness=2 ** -30,
    validate_args=True)] *)
Definition flat : result (PERT float32) :=
  __init__ no_variables (PyFloat (whole 0)) (PyFloat (whole 1))
    (PyFloat (whole 2)) (PyFloat tiny) true false "PERT".



(** A store whose only variable, cell 0, holds [1]. *)
Definition one_variable : store Q :=
  fun x => match x with O => 1 | S _ => 0 end.

(** [PERT(mini=v, mode=0., maxi=11., validate_args=True)] with [v] the
    [tf.Variable] of cell 0. *)
Definition mixed : result (PERT Q) :=
  __init__ one_variable (TfVariable 0%nat) (PyFloat (whole 0))
    (PyFloat (whole 11)) (PyFloat (whole 4)) true false "PERT".

(** [PERT(mini=5., mode=3., maxi=2., smoothness=-1., validate_args=True)]:
    every invariant broken at once. *)
Definition broken : result (PERT Q) :=
  __init__ no_variables (PyFloat (whole 5)) (PyFloat (whole 3))
    (PyFloat (whole 2)) (PyFloat (whole (-1))) true false "PERT".

(** The object a construction returns, when it returns one. *)
Definition returned {A : Type} (r : result A)
    : match r with Ok _ => A | Raise _ => unit end :=
  match r with
  | Ok a => a
  | Raise _ => tt
  end.

(** The object of the docstring example, in binary32 and in exact
    arithmetic, and with [validate_args=True]. *)
Definition standard_f32 : PERT float32 := returned (standard float32 false).
Definition standard_exact : PERT Q := returned (standard Q false).
Definition standard_checked : PERT Q := returned (standard Q true).
Definition standard_checked_f32 : PERT float32 :=
  returned (standard float32 true).

(** [tf.sqrt] on a binary32 element. *)
Definition f32_sqrt (x : float32) : float32 :=
  flush (SFsqrt f32_prec f32_emax (flush x)).

(** A store with four variables holding [1], [7], [11] and [4]. *)
Definition four_variables : store Q :=
  fun x =>
    match x with
    | 0%nat => 1
    | 1%nat => 7
    | 2%nat => 11
    | _ => 4
    end.

(** [PERT(a, b, c, d, validate_args=True)] with the four parameters the
    [tf.Variable]s of cells 0 to 3. *)
Definition by_reference : PERT Q :=
  returned
    (__init__ four_variables (TfVariable 0%nat) (TfVariable 1%nat)
       (TfVariable 2%nat) (TfVariable 3%nat) true false "PERT").

(** The same four variables after the first one, the minimum, has been
    assigned [8]. *)
Definition raised_minimum : store Q :=
  fun x =>
    match x with
    | 0%nat => 8
    | _ => four_variables x
    end.

(** The four variables after they have been assigned [5], [3], [2] and
    [-1]: every invariant broken at once. *)
Definition all_broken : store Q :=
  fun x =>
    match x with
    | 0%nat => 5
    | 1%nat => 3
    | 2%nat => 2
    | _ => -1
    end.

(** A binary32 number that is zero or a finite non-zero number: neither
    an infinity nor NaN. *)
Definition f32_finite (x : float32) : bool :=
  match x with
  | S754_zero _ | S754_finite _ _ _ => true
  | S754_infinity _ | S754_nan => false
  end.

(** Negation in binary32. *)
Definition f32_opp : float32 -> float32 := SFopp.

(** * Properties *)

Section Construction.

Variable T : Type.
Context {D : Dtype T}.

Lemma getattr_mode : getattr_class "_mode" = Ok tt.
Proof. reflexivity. Qed.

Lemma read_convert (st : store T) (x : tensorlike T) :
  read st (convert_nonref_to_tensor x) = read st x.
Proof. destruct x; reflexivity. Qed.

Lemma is_ref_convert (x : tensorlike T) :
  is_ref (convert_nonref_to_tensor x) = is_ref x.
Proof. destruct x; reflexivity. Qed.

Lemma convert_reference (x : tensorlike T) :
  is_ref x = true -> convert_nonref_to_tensor x = x.
Proof. destruct x; intros H; try discriminate H; reflexivity. Qed.

Lemma gate_at_construction (x : tensorlike T) :
  gate true x = negb (is_ref x).
Proof. destruct x; reflexivity. Qed.

Lemma gate_on_access (x : tensorlike T) : gate false x = is_ref x.
Proof. destruct x; reflexivity. Qed.

Lemma messages_differ :
  msg_mode <> msg_maximum /\ msg_mode <> msg_smoothness /\
  msg_maximum <> msg_smoothness.
Proof. repeat split; discriminate. Qed.

Lemma _parameter_control_dependencies_off (self : PERT T) (st : store T)
    (is_init : bool) :
  validate_args self = false ->
  _parameter_control_dependencies self st is_init = ret [].
Proof.
  intros Hoff. unfold _parameter_control_dependencies.
  rewrite Hoff. reflexivity.
Qed.

(** What a run of the method does, check by check: a check is made when
    its guards hold and no earlier check has failed, and the run stops on
    the first check that fails. *)
Lemma _parameter_control_dependencies_on (self : PERT T) (st : store T)
    (is_init : bool) :
  validate_args self = true ->
  let run := _parameter_control_dependencies self st is_init in
  let mode_selected :=
    gate is_init (_mod self) && gate is_init (_min self) in
  let maximum_selected :=
    gate is_init (_mod self) && gate is_init (_max self) in
  let smoothness_selected := gate is_init (_smoothness self) in
  let mode_holds :=
    negb mode_selected
    || greater (read st (_mod self)) (read st (_min self)) in
  let maximum_holds :=
    negb maximum_selected
    || greater (read st (_max self)) (read st (_mod self)) in
  let smoothness_holds :=
    negb smoothness_selected
    || greater (read st (_smoothness self)) (lit 0) in
  made run =
    (if mode_selected then [msg_mode] else []) ++
    (if maximum_selected && mode_holds then [msg_maximum] else []) ++
    (if smoothness_selected && mode_holds && maximum_holds
     then [msg_smoothness] else []) /\
  raised run =
    if negb mode_holds then Some (InvalidArgumentError msg_mode)
    else if negb maximum_holds then Some (InvalidArgumentError msg_maximum)
    else if negb smoothness_holds
         then Some (InvalidArgumentError msg_smoothness)
    else None.
Proof.
  intros Hon. cbv zeta. unfold _parameter_control_dependencies.
  rewrite Hon. cbn [negb].
  unfold raised, append, and_then, ret, assert_greater, assert_positive.
  destruct (gate is_init (_mod self)), (gate is_init (_min self)),
    (gate is_init (_max self)), (gate is_init (_smoothness self)),
    (greater (read st (_mod self)) (read st (_min self))),
    (greater (read st (_max self)) (read st (_mod self))),
    (greater (read st (_smoothness self)) (lit 0));
    split; reflexivity.
Qed.

(** A run returns exactly when every check whose guards hold holds. *)
Lemma returns_iff (self : PERT T) (st : store T) (is_init : bool) :
  raised (_parameter_control_dependencies self st is_init) = None <->
  validate_args self = false \/
  ((gate is_init (_mod self) = true -> gate is_init (_min self) = true ->
    greater (read st (_mod self)) (read st (_min self)) = true) /\
   (gate is_init (_mod self) = true -> gate is_init (_max self) = true ->
    greater (read st (_max self)) (read st (_mod self)) = true) /\
   (gate is_init (_smoothness self) = true ->
    greater (read st (_smoothness self)) (lit 0) = true)).
Proof.
  destruct (validate_args self) eqn:Hv.
  - destruct (_parameter_control_dependencies_on self st is_init Hv)
      as [_ Hr].
    cbv zeta in Hr. rewrite Hr. clear Hr.
    destruct (gate is_init (_mod self)), (gate is_init (_min self)),
      (gate is_init (_max self)), (gate is_init (_smoothness self)),
      (greater (read st (_mod self)) (read st (_min self))),
      (greater (read st (_max self)) (read st (_mod self))),
      (greater (read st (_smoothness self)) (lit 0));
      cbn; split; intros H; try reflexivity; try discriminate H;
      try (right; repeat split; intros; congruence);
      destruct H as [H|(H1 & H2 & H3)]; try discriminate H;
      try (specialize (H1 eq_refl eq_refl); discriminate H1);
      try (specialize (H2 eq_refl eq_refl); discriminate H2);
      try (specialize (H3 eq_refl); discriminate H3).
  - rewrite (_parameter_control_dependencies_off self st is_init Hv).
    split; [left|]; reflexivity.
Qed.

End Construction.

Section Constructor.

Variable T : Type.
Context {D : Dtype T}.

Variable st : store T.
Variables mini mode maxi smooth : tensorlike T.
Variables validate nan_stats : bool.
Variable nm : string.

(** The constructor is the validation of the object it has assembled. *)
Lemma __init___unfold :
  exists self,
    (_min self = convert_nonref_to_tensor mini /\
     _mod self = convert_nonref_to_tensor mode /\
     _max self = convert_nonref_to_tensor maxi /\
     _smoothness self = convert_nonref_to_tensor smooth /\
     _concentration1 self =
       Tensor
         (add (lit 1)
            (div (mul (read st smooth) (sub (read st mode) (read st mini)))
                 (sub (read st maxi) (read st mini)))) /\
     _concentration0 self =
       Tensor
         (add (lit 1)
            (div (mul (read st smooth) (sub (read st maxi) (read st mode)))
                 (sub (read st maxi) (read st mini)))) /\
     _scale self = Tensor (sub (read st maxi) (read st mini)) /\
     distribution self =
       {| beta_concentration1 := _concentration1 self;
          beta_concentration0 := _concentration0 self;
          beta_allow_nan_stats := nan_stats |} /\
     bijector self = {| shift := _min self; affine_scale := _scale self |} /\
     validate_args self = validate) /\
    __init__ st mini mode maxi smooth validate nan_stats nm =
      bind (outcome (_parameter_control_dependencies self st true))
           (fun _ => Ok self).
Proof.
  unfold __init__. rewrite getattr_mode. cbn [bind]. cbv zeta.
  unfold super___init__.
  match goal with
  | |- context [_parameter_control_dependencies ?s st true] => exists s
  end.
  split.
  2: { match goal with
       | |- bind (bind ?o _) _ = _ => destruct o; reflexivity
       end. }
  cbn [_min _mod _max _smoothness _concentration1 _concentration0 _scale
       distribution bijector validate_args].
  unfold tl_add, tl_sub, tl_mul, tl_div. cbn [read].
  rewrite !read_convert. repeat split.
Qed.

(** The attributes of an object the constructor has returned, and that
    its validation at construction has passed. *)
Lemma __init___Ok (self : PERT T) :
  __init__ st mini mode maxi smooth validate nan_stats nm = Ok self ->
  (_min self = convert_nonref_to_tensor mini /\
   _mod self = convert_nonref_to_tensor mode /\
   _max self = convert_nonref_to_tensor maxi /\
   _smoothness self = convert_nonref_to_tensor smooth /\
   _concentration1 self =
     Tensor
       (add (lit 1)
          (div (mul (read st smooth) (sub (read st mode) (read st mini)))
               (sub (read st maxi) (read st mini)))) /\
   _concentration0 self =
     Tensor
       (add (lit 1)
          (div (mul (read st smooth) (sub (read st maxi) (read st mode)))
               (sub (read st maxi) (read st mini)))) /\
   _scale self = Tensor (sub (read st maxi) (read st mini)) /\
   distribution self =
     {| beta_concentration1 := _concentration1 self;
        beta_concentration0 := _concentration0 self;
        beta_allow_nan_stats := nan_stats |} /\
   bijector self = {| shift := _min self; affine_scale := _scale self |} /\
   validate_args self = validate) /\
  raised (_parameter_control_dependencies self st true) = None.
Proof.
  destruct __init___unfold as (self0 & Hfields & Hinit).
  rewrite Hinit. unfold raised.
  destruct (outcome (_parameter_control_dependencies self0 st true))
    as [l|e] eqn:Hrun; cbn [bind]; intros H; [|discriminate H].
  injection H as <-. rewrite Hrun. split; [exact Hfields|reflexivity].
Qed.

(** When the constructor returns: with validation off, or when every
    check on fixed values holds. *)
Lemma __init___returns :
  (exists self,
     __init__ st mini mode maxi smooth validate nan_stats nm = Ok self) <->
  validate = false \/
  ((is_ref mode = false -> is_ref mini = false ->
    greater (read st mode) (read st mini) = true) /\
   (is_ref mode = false -> is_ref maxi = false ->
    greater (read st maxi) (read st mode) = true) /\
   (is_ref smooth = false -> greater (read st smooth) (lit 0) = true)).
Proof.
  destruct __init___unfold as (self0 & Hfields & Hinit).
  destruct Hfields as (Hmin & Hmod & Hmax & Hs & _ & _ & _ & _ & _ & Hv).
  pose proof (returns_iff self0 st true) as Hiff.
  rewrite Hv, Hmin, Hmod, Hmax, Hs in Hiff.
  rewrite !gate_at_construction, !is_ref_convert, !read_convert in Hiff.
  rewrite !negb_true_iff in Hiff.
  rewrite <- Hiff, Hinit. unfold raised.
  destruct (outcome (_parameter_control_dependencies self0 st true))
    as [l|e]; cbn [bind]; split.
  - reflexivity.
  - intros _. exists self0. reflexivity.
  - intros [self H]. discriminate H.
  - discriminate.
Qed.

(** The constructor raises nothing but the failure of a check. *)
Lemma __init___raises (e : exn) :
  __init__ st mini mode maxi smooth validate nan_stats nm = Raise e ->
  validate = true /\
  (e = InvalidArgumentError msg_mode \/
   e = InvalidArgumentError msg_maximum \/
   e = InvalidArgumentError msg_smoothness).
Proof.
  destruct __init___unfold as (self0 & Hfields & Hinit).
  destruct Hfields as (_ & _ & _ & _ & _ & _ & _ & _ & _ & Hv).
  rewrite Hinit.
  destruct validate eqn:Hval.
  - destruct (_parameter_control_dependencies_on self0 st true Hv)
      as [_ Hr].
    cbv zeta in Hr. unfold raised in Hr.
    destruct (outcome (_parameter_control_dependencies self0 st true))
      as [l|e0]; cbn [bind]; intros H; [discriminate H|].
    injection H as ->. split; [reflexivity|].
    repeat match type of Hr with
           | context [if ?b then _ else _] => destruct b
           end; try discriminate Hr; injection Hr as ->; auto.
  - rewrite (_parameter_control_dependencies_off self0 st true Hv).
    discriminate.
Qed.

(** C1: the constructor returns an object exactly when validation is off
    or every check on fixed values holds (otherwise it raises the failure
    of a check), and the derived quantities of every object it returns are
    [concentration1 = 1 + smoothness*(mode-minimum)/(maximum-minimum)],
    [concentration0 = 1 + smoothness*(maximum-mode)/(maximum-minimum)],
    [scale = maximum - minimum] and [loc = minimum], with the parameters
    converted to the dtype and read when the object is constructed: the
    three computed quantities are tensors, so they read the same in every
    later store, and [loc] is the stored minimum itself. *)
Theorem derived_quantities :
  ((exists self,
      __init__ st mini mode maxi smooth validate nan_stats nm = Ok self) <->
   validate = false \/
   ((is_ref mode = false -> is_ref mini = false ->
     greater (read st mode) (read st mini) = true) /\
    (is_ref mode = false -> is_ref maxi = false ->
     greater (read st maxi) (read st mode) = true) /\
    (is_ref smooth = false -> greater (read st smooth) (lit 0) = true))) /\
  (forall e,
     __init__ st mini mode maxi smooth validate nan_stats nm = Raise e ->
     exists msg, e = InvalidArgumentError msg) /\
  (forall self,
     __init__ st mini mode maxi smooth validate nan_stats nm = Ok self ->
     (forall later : store T,
        read later (concentration1 self) =
          add (lit 1)
            (div (mul (read st smooth) (sub (read st mode) (read st mini)))
                 (sub (read st maxi) (read st mini))) /\
        read later (concentration0 self) =
          add (lit 1)
            (div (mul (read st smooth) (sub (read st maxi) (read st mode)))
                 (sub (read st maxi) (read st mini))) /\
        read later (scale self) = sub (read st maxi) (read st mini) /\
        read later (loc self) = read later mini) /\
     is_ref (concentration1 self) = false /\
     is_ref (concentration0 self) = false /\
     is_ref (scale self) = false /\
     loc self = minimum self /\
     minimum self = convert_nonref_to_tensor mini).
Proof.
  split; [exact __init___returns|]. split.
  - intros e He. destruct (__init___raises He) as [_ [E|[E|E]]];
      rewrite E; eexists; reflexivity.
  - intros self Hself.
    destruct (__init___Ok Hself)
      as ((Hmin & _ & _ & _ & H1 & H0 & Hsc & _) & _).
    unfold concentration1, concentration0, scale, loc, minimum.
    rewrite H1, H0, Hsc, Hmin. cbn [read is_ref].
    repeat split. apply read_convert.
Qed.

End Constructor.

Section Validation.

Variable T : Type.
Context {D : Dtype T}.

(** C2, as the method has it: with [validate_args] enabled, the check
    [mode > minimum] is made exactly when the guard holds for the mode and
    for the minimum, both: at construction when both are fixed values,
    afterwards when both are references.  The run stops there, with the
    message "Mode must be greater than minimum.", exactly when the mode is
    not greater than the minimum.  The check [maximum > mode] is made
    exactly when the guard holds for the mode and for the maximum and the
    run has not stopped on the first check, and the run stops on it with
    "Maximum must be greater than mode." when the maximum is not greater
    than the mode. *)
Theorem validation_gating (self : PERT T) (st : store T) (is_init : bool) :
  let run := _parameter_control_dependencies self st is_init in
  (In msg_mode (performed run) <->
     validate_args self = true /\
     gate is_init (_mod self) = true /\ gate is_init (_min self) = true) /\
  (failure run = Some msg_mode <->
     validate_args self = true /\
     gate is_init (_mod self) = true /\ gate is_init (_min self) = true /\
     greater (read st (_mod self)) (read st (_min self)) = false) /\
  (In msg_maximum (performed run) <->
     validate_args self = true /\
     gate is_init (_mod self) = true /\ gate is_init (_max self) = true /\
     failure run <> Some msg_mode) /\
  (failure run = Some msg_maximum <->
     validate_args self = true /\
     gate is_init (_mod self) = true /\ gate is_init (_max self) = true /\
     failure run <> Some msg_mode /\
     greater (read st (_max self)) (read st (_mod self)) = false).
Proof.
  destruct messages_differ as (H12 & H13 & H23).
  cbv zeta. unfold failure, performed.
  destruct (validate_args self) eqn:Hv.
  - destruct (_parameter_control_dependencies_on self st is_init Hv)
      as [Hm Hr].
    cbv zeta in Hm, Hr. rewrite Hm, Hr. clear Hm Hr.
    destruct (gate is_init (_mod self)), (gate is_init (_min self)),
      (gate is_init (_max self)), (gate is_init (_smoothness self)),
      (greater (read st (_mod self)) (read st (_min self))),
      (greater (read st (_max self)) (read st (_mod self))),
      (greater (read st (_smoothness self)) (lit 0));
      cbn; intuition congruence.
  - rewrite (_parameter_control_dependencies_off self st is_init Hv).
    cbn. intuition congruence.
Qed.

(** C3, as the method has it: with [validate_args] enabled the checks
    are made in the order mode, maximum, smoothness; a check is made when
    its own guards hold and every check made before it held, and the run
    reports one failure, that of the first check that does not hold. *)
Theorem checks_stop_at_first_failure (self : PERT T) (st : store T)
    (is_init : bool) :
  validate_args self = true ->
  let run := _parameter_control_dependencies self st is_init in
  let mode_selected :=
    gate is_init (_mod self) && gate is_init (_min self) in
  let maximum_selected :=
    gate is_init (_mod self) && gate is_init (_max self) in
  let smoothness_selected := gate is_init (_smoothness self) in
  let mode_holds :=
    negb mode_selected
    || greater (read st (_mod self)) (read st (_min self)) in
  let maximum_holds :=
    negb maximum_selected
    || greater (read st (_max self)) (read st (_mod self)) in
  let smoothness_holds :=
    negb smoothness_selected
    || greater (read st (_smoothness self)) (lit 0) in
  performed run =
    (if mode_selected then [msg_mode] else []) ++
    (if maximum_selected && mode_holds then [msg_maximum] else []) ++
    (if smoothness_selected && mode_holds && maximum_holds
     then [msg_smoothness] else []) /\
  failure run =
    (if negb mode_holds then Some msg_mode
     else if negb maximum_holds then Some msg_maximum
     else if negb smoothness_holds then Some msg_smoothness
     else None) /\
  (forall l, outcome run = Ok l -> map (@message) l = performed run).
Proof.
  intros Hv. cbv zeta.
  destruct (_parameter_control_dependencies_on self st is_init Hv)
    as [Hm Hr].
  cbv zeta in Hm, Hr. unfold failure, performed. rewrite Hm, Hr.
  split; [reflexivity|]. split.
  - repeat match goal with
           | |- context [if ?b then _ else _] => destruct b
           end; reflexivity.
  - clear Hm Hr. unfold _parameter_control_dependencies.
    rewrite Hv. cbn [negb].
    unfold append, and_then, ret, assert_greater, assert_positive.
    destruct (gate is_init (_mod self)), (gate is_init (_min self)),
      (gate is_init (_max self)), (gate is_init (_smoothness self)),
      (greater (read st (_mod self)) (read st (_min self))),
      (greater (read st (_max self)) (read st (_mod self))),
      (greater (read st (_smoothness self)) (lit 0));
      cbn; intros l Hl; try discriminate Hl; injection Hl as <-;
      reflexivity.
Qed.

(** A check that a run has made is one whose guards hold. *)
Lemma performed_selected (self : PERT T) (st : store T) (is_init : bool)
    (m : string) :
  In m (performed (_parameter_control_dependencies self st is_init)) ->
  (m = msg_mode /\
   gate is_init (_mod self) = true /\ gate is_init (_min self) = true) \/
  (m = msg_maximum /\
   gate is_init (_mod self) = true /\ gate is_init (_max self) = true) \/
  (m = msg_smoothness /\ gate is_init (_smoothness self) = true).
Proof.
  unfold performed. destruct (validate_args self) eqn:Hv.
  - destruct (_parameter_control_dependencies_on self st is_init Hv)
      as [Hm _].
    cbv zeta in Hm. rewrite Hm. clear Hm.
    destruct (gate is_init (_mod self)), (gate is_init (_min self)),
      (gate is_init (_max self)), (gate is_init (_smoothness self)),
      (greater (read st (_mod self)) (read st (_min self))),
      (greater (read st (_max self)) (read st (_mod self)));
      cbn; intuition.
  - rewrite (_parameter_control_dependencies_off self st is_init Hv).
    intros [].
Qed.

(** X1: an object all of whose parameters are fixed values is validated
    once, at construction: with [validate_args] on, the construction-time
    run reports no failure exactly when [mode > minimum], [maximum > mode]
    and [smoothness > 0] all hold, and a later access checks nothing. *)
Theorem fixed_parameters_validated_once (self : PERT T) (st : store T) :
  validate_args self = true ->
  is_ref (_min self) = false ->
  is_ref (_mod self) = false ->
  is_ref (_max self) = false ->
  is_ref (_smoothness self) = false ->
  (raised (_parameter_control_dependencies self st true) = None <->
     greater (read st (_mod self)) (read st (_min self)) = true /\
     greater (read st (_max self)) (read st (_mod self)) = true /\
     greater (read st (_smoothness self)) (lit 0) = true) /\
  _parameter_control_dependencies self st false = ret [].
Proof.
  intros Hv Hmin Hmod Hmax Hs. split.
  - rewrite returns_iff, Hv, !gate_at_construction, Hmin, Hmod, Hmax, Hs.
    cbn [negb]. intuition congruence.
  - unfold _parameter_control_dependencies.
    rewrite Hv, !gate_on_access, Hmod, Hs. reflexivity.
Qed.

(** X2: an object all of whose parameters are references is not
    validated at construction; with [validate_args] on, every later access
    checks the values the variables hold at that moment, in the order mode,
    maximum, smoothness: it returns, having made the three checks, exactly
    when the three conditions hold, and otherwise stops on the first one
    that does not. *)
Theorem references_validated_on_access (self : PERT T)
    (st later : store T) :
  validate_args self = true ->
  is_ref (_min self) = true ->
  is_ref (_mod self) = true ->
  is_ref (_max self) = true ->
  is_ref (_smoothness self) = true ->
  let run := _parameter_control_dependencies self later false in
  _parameter_control_dependencies self st true = ret [] /\
  (raised run = None <->
     greater (read later (_mod self)) (read later (_min self)) = true /\
     greater (read later (_max self)) (read later (_mod self)) = true /\
     greater (read later (_smoothness self)) (lit 0) = true) /\
  (raised run = None ->
   performed run = [msg_mode; msg_maximum; msg_smoothness]) /\
  failure run =
    (if negb (greater (read later (_mod self)) (read later (_min self)))
     then Some msg_mode
     else if negb (greater (read later (_max self))
                     (read later (_mod self)))
     then Some msg_maximum
     else if negb (greater (read later (_smoothness self)) (lit 0))
     then Some msg_smoothness
     else None).
Proof.
  intros Hv Hmin Hmod Hmax Hs. cbv zeta. split.
  { unfold _parameter_control_dependencies.
    rewrite Hv, !gate_at_construction, Hmod, Hs. reflexivity. }
  destruct (_parameter_control_dependencies_on self later false Hv)
    as [Hm Hr].
  cbv zeta in Hm, Hr. unfold failure, performed. rewrite Hm, Hr.
  rewrite !gate_on_access, Hmin, Hmod, Hmax, Hs. cbn [andb negb orb].
  destruct (greater (read later (_mod self)) (read later (_min self))),
    (greater (read later (_max self)) (read later (_mod self))),
    (greater (read later (_smoothness self)) (lit 0));
    cbn; repeat split; intros; try discriminate; try reflexivity;
    intuition congruence.
Qed.

(** X3: no check is made in both phases: a check that is made at
    construction is never made on a later access of the same object. *)
Theorem no_check_in_both_phases (self : PERT T) (st later : store T)
    (m : string) :
  In m (performed (_parameter_control_dependencies self st true)) ->
  ~ In m (performed (_parameter_control_dependencies self later false)).
Proof.
  destruct messages_differ as (H12 & H13 & H23).
  intros Hinit Hlater.
  apply performed_selected in Hinit. apply performed_selected in Hlater.
  rewrite !gate_at_construction in Hinit.
  rewrite !gate_on_access in Hlater.
  destruct (is_ref (_mod self)), (is_ref (_min self)),
    (is_ref (_max self)), (is_ref (_smoothness self));
    cbn in Hinit; intuition (subst; congruence).
Qed.

(** X4: which checks an object ever gets, with [validate_args] on and
    no check failing: the check [mode > minimum] is made in one of the two
    phases exactly when the mode and the minimum are of the same kind (both
    fixed or both references), the check [maximum > mode] exactly when the
    mode and the maximum are, and the check of the smoothness always. *)
Theorem checks_across_phases (self : PERT T) (st later : store T) :
  validate_args self = true ->
  raised (_parameter_control_dependencies self st true) = None ->
  raised (_parameter_control_dependencies self later false) = None ->
  let at_construction :=
    performed (_parameter_control_dependencies self st true) in
  let on_access :=
    performed (_parameter_control_dependencies self later false) in
  (In msg_mode at_construction \/ In msg_mode on_access <->
     is_ref (_mod self) = is_ref (_min self)) /\
  (In msg_maximum at_construction \/ In msg_maximum on_access <->
     is_ref (_mod self) = is_ref (_max self)) /\
  (In msg_smoothness at_construction \/ In msg_smoothness on_access).
Proof.
  intros Hv. cbv zeta.
  destruct messages_differ as (H12 & H13 & H23).
  destruct (_parameter_control_dependencies_on self st true Hv)
    as [Hm1 Hr1].
  destruct (_parameter_control_dependencies_on self later false Hv)
    as [Hm2 Hr2].
  cbv zeta in Hm1, Hr1, Hm2, Hr2. unfold performed.
  rewrite Hm1, Hr1, Hm2, Hr2. clear Hm1 Hr1 Hm2 Hr2.
  rewrite !gate_at_construction, !gate_on_access.
  destruct (is_ref (_mod self)), (is_ref (_min self)),
    (is_ref (_max self)), (is_ref (_smoothness self));
    cbn [negb andb orb];
    repeat match goal with
           | |- context [greater ?x ?y] => destruct (greater x y)
           end;
    cbn; intros; try discriminate; intuition congruence.
Qed.

End Validation.

Section Refusal.

Variable T : Type.
Context {D : Dtype T}.

(** X20: with [validate_args=True] and four fixed values, the
    constructor refuses parameters that break an invariant, with the
    failure of the first check that does not hold, in the order mode,
    maximum, smoothness. *)
Theorem construction_raises_first_failure (st : store T)
    (mini mode maxi smooth : tensorlike T) (nan_stats : bool)
    (nm : string) :
  is_ref mini = false ->
  is_ref mode = false ->
  is_ref maxi = false ->
  is_ref smooth = false ->
  (greater (read st mode) (read st mini) = false ->
   __init__ st mini mode maxi smooth true nan_stats nm =
     Raise (InvalidArgumentError msg_mode)) /\
  (greater (read st mode) (read st mini) = true ->
   greater (read st maxi) (read st mode) = false ->
   __init__ st mini mode maxi smooth true nan_stats nm =
     Raise (InvalidArgumentError msg_maximum)) /\
  (greater (read st mode) (read st mini) = true ->
   greater (read st maxi) (read st mode) = true ->
   greater (read st smooth) (lit 0) = false ->
   __init__ st mini mode maxi smooth true nan_stats nm =
     Raise (InvalidArgumentError msg_smoothness)).
Proof.
  intros Rmin Rmod Rmax Rs.
  destruct (__init___unfold st mini mode maxi smooth true nan_stats nm)
    as (self & Hfields & Hinit).
  destruct Hfields as (Hmin & Hmod & Hmax & Hs & _ & _ & _ & _ & _ & Hv).
  destruct (_parameter_control_dependencies_on self st true Hv) as [_ Hr].
  cbv zeta in Hr.
  rewrite Hmin, Hmod, Hmax, Hs in Hr.
  rewrite !gate_at_construction, !is_ref_convert, !read_convert in Hr.
  rewrite Rmin, Rmod, Rmax, Rs in Hr. cbn [negb andb orb] in Hr.
  rewrite Hinit. unfold raised in Hr.
  destruct (outcome (_parameter_control_dependencies self st true))
    as [l|e]; cbn [bind];
    destruct (greater (read st mode) (read st mini)),
      (greater (read st maxi) (read st mode)),
      (greater (read st smooth) (lit 0));
    cbn [negb] in Hr; try discriminate Hr;
    repeat split; intros; try discriminate; congruence.
Qed.

End Refusal.

Section Overrides.

Variable T : Type.
Context {D : Dtype T}.

Variable sqrt : T -> T.
Variable name_scope : pyarg T -> bool.
Variable inherited :
  string -> PERT T -> store T -> list (tensorlike T) -> kwargs T ->
  result (tensorlike T).

Local Abbreviation ask := (query sqrt name_scope inherited).
Local Abbreviation class_dict := (PERT_dict (D := D) sqrt).
Local Abbreviation on_access self st :=
  (outcome (_parameter_control_dependencies self st false)).

(** The class dictionary holds the four methods under the names of the
    class body, and nothing under the names [_survival_function], [_mean]
    and [_cdf]. *)
Lemma class_dict_keys :
  map fst class_dict =
    [ "_survivial_function"; "_variance"; "_stddev"; "_mode" ]%string /\
  (forall k, In k (map fst class_dict) -> defined_in_class k = true) /\
  lookup "_survival_function" class_dict = None /\
  lookup "_mean" class_dict = None /\
  lookup "_cdf" class_dict = None.
Proof.
  repeat split.
  intros k [<-|[<-|[<-|[<-|[]]]]]; reflexivity.
Qed.

(** A query without a method of its own in the class goes to the
    composed distribution, once the name scope is open and the validation
    on access has passed. *)
Lemma ask_mean (fuel : nat) (self : PERT T) (st : store T) (kw : kwargs T) :
  ask (S fuel) self st "mean" [] kw =
    if name_scope (PyStr "mean")
    then bind (on_access self st) (fun _ => inherited "_mean" self st [] kw)
    else Raise scope_error.
Proof. reflexivity. Qed.

Lemma ask_variance_default (fuel : nat) (self : PERT T) (st : store T)
    (kw : kwargs T) :
  ask (S fuel) self st "variance" [] kw =
    if name_scope (PyStr "variance")
    then bind (on_access self st)
           (fun _ => _variance (ask fuel self st) self st kw)
    else Raise scope_error.
Proof. reflexivity. Qed.

Lemma ask_variance_named (fuel : nat) (self : PERT T) (st : store T)
    (n : pyarg T) (kw : kwargs T) :
  ask (S fuel) self st "variance" [n] kw =
    if name_scope n
    then bind (on_access self st)
           (fun _ => _variance (ask fuel self st) self st kw)
    else Raise scope_error.
Proof. reflexivity. Qed.

Lemma ask_stddev (fuel : nat) (self : PERT T) (st : store T)
    (kw : kwargs T) :
  ask (S fuel) self st "stddev" [] kw =
    if name_scope (PyStr "stddev")
    then bind (on_access self st)
           (fun _ => _stddev sqrt (ask fuel self st) self st kw)
    else Raise scope_error.
Proof. reflexivity. Qed.

Lemma ask_mode (fuel : nat) (self : PERT T) (st : store T)
    (kw : kwargs T) :
  ask (S fuel) self st "mode" [] kw =
    if name_scope (PyStr "mode")
    then bind (on_access self st) (fun _ => Ok (_mod self))
    else Raise scope_error.
Proof. reflexivity. Qed.




(** C5, what the code does: once the validation on access has passed,
    [stddev] with keywords [kw] is the square root of [variance] called
    with the keyword dictionary as its only positional argument, which is
    the name of the op; when the name scope takes strings only that call
    raises, so [stddev] never returns: it raises the failure of the
    validation, or else that of the name scope. *)
Theorem stddev_passes_keywords_as_name (fuel : nat) (self : PERT T)
    (st : store T) (kw : kwargs T) :
  name_scope (PyStr "stddev") = true ->
  name_scope (PyDict kw) = false ->
  ask (S (S fuel)) self st "stddev" [] kw =
    bind (on_access self st)
      (fun _ =>
         bind (ask (S fuel) self st "variance" [PyDict kw] [])
              (fun v => Ok (Tensor (sqrt (read st v))))) /\
  ask (S fuel) self st "variance" [PyDict kw] [] = Raise scope_error /\
  (raised (_parameter_control_dependencies self st false) = None ->
   ask (S (S fuel)) self st "stddev" [] kw = Raise scope_error) /\
  (forall v, ask (S (S fuel)) self st "stddev" [] kw <> Ok v).
Proof.
  intros Hstr Hdict.
  assert (Hvar : ask (S fuel) self st "variance" [PyDict kw] [] =
                 Raise scope_error).
  { rewrite ask_variance_named, Hdict. reflexivity. }
  rewrite ask_stddev, Hstr. unfold _stddev. rewrite Hvar.
  split; [reflexivity|]. split; [reflexivity|].
  unfold raised.
  destruct (on_access self st); cbn [bind]; split;
    intros; try discriminate; reflexivity.
Qed.

(** C6: [variance()] is [(m - minimum) * (maximum - m) / (smoothness + 3)]
    where [m] is what [mean()] returns, and [mean()] is the composed
    distribution's own [_mean]. *)
Theorem variance_formula (fuel : nat) (self : PERT T) (st : store T)
    (kw : kwargs T) (m : tensorlike T) :
  name_scope (PyStr "variance") = true ->
  ask (S fuel) self st "mean" [] [] = Ok m ->
  ask (S (S fuel)) self st "variance" [] kw =
    Ok (Tensor
          (div (mul (sub (read st m) (read st (minimum self)))
                    (sub (read st (maximum self)) (read st m)))
               (add (read st (smoothness self)) (lit 3)))) /\
  inherited "_mean" self st [] [] = Ok m.
Proof.
  intros Hvar Hmean.
  assert (Hvalid : exists l, on_access self st = Ok l).
  { rewrite ask_mean in Hmean.
    destruct (name_scope (PyStr "mean")); [|discriminate Hmean].
    destruct (on_access self st) as [l|e]; [|discriminate Hmean].
    exists l. reflexivity. }
  destruct Hvalid as [l Hvalid]. split.
  - rewrite ask_variance_default, Hvar, Hvalid. cbn [bind].
    unfold _variance. rewrite Hmean. reflexivity.
  - rewrite ask_mean, Hvalid in Hmean.
    destruct (name_scope (PyStr "mean")); [exact Hmean|discriminate].
Qed.

(** C7: for every constructed object, [mode()] returns the stored mode
    parameter itself, whatever the composed distribution would answer: the
    mode the constructor was given, converted to the dtype when it was a
    Python number and the very tensor or variable otherwise.  The method
    [_mode] returns it in every store; the query returns it whenever the
    validation on access passes, and raises the failure of that validation
    otherwise. *)
Theorem mode_round_trip (st : store T)
    (mini mode maxi smooth : tensorlike T) (validate nan_stats : bool)
    (nm : string) (self : PERT T) :
  name_scope (PyStr "mode") = true ->
  __init__ st mini mode maxi smooth validate nan_stats nm = Ok self ->
  (forall v, mode = Tensor v -> convert_nonref_to_tensor mode = mode) /\
  (forall x, mode = TfVariable x -> convert_nonref_to_tensor mode = mode) /\
  forall (fuel : nat) (later : store T) (kw : kwargs T),
    _mode (ask fuel self later) self later kw =
      Ok (convert_nonref_to_tensor mode) /\
    read later (convert_nonref_to_tensor mode) = read later mode /\
    ask (S fuel) self later "mode" [] kw =
      bind (on_access self later)
           (fun _ => Ok (convert_nonref_to_tensor mode)) /\
    (raised (_parameter_control_dependencies self later false) = None ->
     ask (S fuel) self later "mode" [] kw =
       Ok (convert_nonref_to_tensor mode)).
Proof.
  intros Hstr Hinit.
  pose proof Hinit as Hok. apply __init___Ok in Hok.
  destruct Hok as ((_ & Hmod & _) & _).
  split; [intros v ->; reflexivity|].
  split; [intros x ->; reflexivity|].
  intros fuel later kw.
  rewrite ask_mode, Hstr. unfold _mode. rewrite Hmod.
  split; [reflexivity|]. split; [apply read_convert|].
  split; [reflexivity|].
  unfold raised. destruct (on_access self later); cbn [bind];
    intros; [reflexivity|discriminate].
Qed.


End Overrides.

(** ** Exact arithmetic *)

Section Exact.

Lemma greater_exact (x y : Q) : greater x y = true <-> y < x.
Proof.
  cbn. rewrite negb_true_iff. split.
  - intros H. apply Qnot_le_lt. intros Hle.
    apply Qle_bool_iff in Hle. congruence.
  - intros H. destruct (Qle_bool x y) eqn:E; [|reflexivity].
    apply Qle_bool_iff in E. exfalso. apply (Qlt_not_le _ _ H E).
Qed.

Lemma positive_quotient (a b : Q) : 0 < a -> 0 < b -> 0 < a / b.
Proof.
  intros Ha Hb. apply Qlt_shift_div_l; [exact Hb|].
  rewrite Qmult_0_l. exact Ha.
Qed.

Lemma quotient_increasing (x y w : Q) : 0 < w -> x < y -> x / w < y / w.
Proof.
  intros Hw Hxy. unfold Qdiv.
  apply Qmult_lt_compat_r; [apply Qinv_lt_0_compat; exact Hw|exact Hxy].
Qed.

Lemma product_nonzero (a b : Q) : ~ a == 0 -> ~ b == 0 -> ~ a * b == 0.
Proof.
  intros Ha Hb E. apply Qmult_integral in E. destruct E; contradiction.
Qed.

(** Both concentrations are above 1 and the scale is positive as soon
    as the parameters are ordered and the smoothness is positive. *)
Lemma above_one (mini mode maxi smooth : Q) :
  mini < mode -> mode < maxi -> 0 < smooth ->
  1 < 1 + smooth * (mode - mini) / (maxi - mini) /\
  1 < 1 + smooth * (maxi - mode) / (maxi - mini) /\
  0 < maxi - mini.
Proof.
  intros Hlo Hhi Hs.
  assert (Hw : 0 < maxi - mini) by lra.
  assert (Ha : 0 < smooth * (mode - mini)).
  { apply Qmult_lt_0_compat; lra. }
  assert (Hb : 0 < smooth * (maxi - mode)).
  { apply Qmult_lt_0_compat; lra. }
  pose proof (positive_quotient Ha Hw) as Hqa.
  pose proof (positive_quotient Hb Hw) as Hqb.
  repeat split; lra.
Qed.

(** C8, in exact arithmetic: for [minimum < mode < maximum] and
    [smoothness > 0] the construction returns an object both of whose
    concentrations are strictly greater than 1. *)
Theorem concentrations_above_one_exact (st : store Q)
    (mini mode maxi smooth : tensorlike Q) (validate nan_stats : bool)
    (nm : string) :
  read st mini < read st mode ->
  read st mode < read st maxi ->
  0 < read st smooth ->
  exists self,
    __init__ st mini mode maxi smooth validate nan_stats nm = Ok self /\
    forall later : store Q,
      1 < read later (concentration1 self) /\
      1 < read later (concentration0 self).
Proof.
  intros Hlo Hhi Hs.
  assert (Hret : exists self,
            __init__ st mini mode maxi smooth validate nan_stats nm
              = Ok self).
  { apply __init___returns. right.
    repeat split; intros; apply greater_exact; assumption. }
  destruct Hret as [self Hinit].
  exists self. split; [exact Hinit|].
  apply __init___Ok in Hinit.
  destruct Hinit as ((_ & _ & _ & _ & H1 & H0 & _) & _).
  intros later. unfold concentration1, concentration0.
  rewrite H1, H0. cbn [read add sub mul div lit exact].
  change (inject_Z 1) with 1.
  destruct (above_one Hlo Hhi Hs) as (Ha & Hb & _). split; assumption.
Qed.


(** X8: validation and construction fit together in exact arithmetic: an
    object that the constructor returns for four fixed values with
    [validate_args=True] has both concentrations above 1 and a positive
    scale. *)
Theorem validated_object_is_well_formed (st : store Q)
    (mini mode maxi smooth : tensorlike Q) (nan_stats : bool) (nm : string)
    (self : PERT Q) :
  is_ref mini = false ->
  is_ref mode = false ->
  is_ref maxi = false ->
  is_ref smooth = false ->
  __init__ st mini mode maxi smooth true nan_stats nm = Ok self ->
  forall later : store Q,
    1 < read later (concentration1 self) /\
    1 < read later (concentration0 self) /\
    0 < read later (scale self).
Proof.
  intros Rmin Rmod Rmax Rs Hinit later.
  assert (Hret : exists self,
            __init__ st mini mode maxi smooth true nan_stats nm = Ok self)
    by (exists self; exact Hinit).
  apply __init___returns in Hret.
  destruct Hret as [Hoff|(Hlo & Hhi & Hpos)]; [discriminate Hoff|].
  specialize (Hlo Rmod Rmin). specialize (Hhi Rmod Rmax).
  specialize (Hpos Rs).
  apply greater_exact in Hlo, Hhi, Hpos. change (lit 0) with 0 in Hpos.
  apply __init___Ok in Hinit.
  destruct Hinit as ((_ & _ & _ & _ & H1 & H0 & Hsc & _) & _).
  unfold concentration1, concentration0, scale. rewrite H1, H0, Hsc.
  cbn [read add sub mul div lit exact]. change (inject_Z 1) with 1.
  exact (above_one Hlo Hhi Hpos).
Qed.

(** X9: in exact arithmetic, with [minimum < maximum] and a positive
    smoothness, of two constructed objects that differ in the mode only
    the one with the mode further to the right has the larger
    [concentration1] and the smaller [concentration0]. *)
Theorem concentrations_monotone_in_mode (st : store Q)
    (mini mode1 mode2 maxi smooth : tensorlike Q) (validate nan_stats : bool)
    (nm : string) (self1 self2 : PERT Q) :
  read st mini < read st maxi ->
  0 < read st smooth ->
  read st mode1 < read st mode2 ->
  __init__ st mini mode1 maxi smooth validate nan_stats nm = Ok self1 ->
  __init__ st mini mode2 maxi smooth validate nan_stats nm = Ok self2 ->
  forall later : store Q,
    read later (concentration1 self1) < read later (concentration1 self2) /\
    read later (concentration0 self2) < read later (concentration0 self1).
Proof.
  intros Hw Hs Hm Hinit1 Hinit2.
  apply __init___Ok in Hinit1, Hinit2.
  destruct Hinit1 as ((_ & _ & _ & _ & H11 & H10 & _) & _).
  destruct Hinit2 as ((_ & _ & _ & _ & H21 & H20 & _) & _).
  intros later. unfold concentration1, concentration0.
  rewrite H11, H10, H21, H20.
  cbn [read add sub mul div lit exact].
  assert (Hw' : 0 < read st maxi - read st mini) by lra.
  split; apply Qplus_lt_r; apply quotient_increasing; try exact Hw';
    apply Qmult_lt_l; try exact Hs; lra.
Qed.

(** X10: in exact arithmetic, with [maximum] different from [minimum]
    and a non-zero smoothness, the mode of the transformed Beta
    distribution of a constructed object,
    [loc + scale * (c1 - 1) / (c1 + c0 - 2)], is the mode parameter: the
    value [_mode] returns is the mode of the distribution the constructor
    composes. *)
Theorem transformed_beta_mode (st : store Q)
    (mini mode maxi smooth : tensorlike Q) (validate nan_stats : bool)
    (nm : string) (self : PERT Q) :
  ~ read st maxi == read st mini ->
  ~ read st smooth == 0 ->
  __init__ st mini mode maxi smooth validate nan_stats nm = Ok self ->
  read st (loc self)
    + read st (scale self)
      * ((read st (concentration1 self) - 1)
         / (read st (concentration1 self) + read st (concentration0 self)
            - 2))
    == read st mode.
Proof.
  intros Hne Hs Hinit. apply __init___Ok in Hinit.
  destruct Hinit as ((Hmin & _ & _ & _ & H1 & H0 & Hsc & _) & _).
  unfold loc, concentration1, concentration0, scale.
  rewrite Hmin, H1, H0, Hsc, read_convert.
  cbn [read add sub mul div lit exact]. change (inject_Z 1) with 1.
  assert (Hw : ~ read st maxi - read st mini == 0).
  { intros E. apply Hne. lra. }
  field. split; [exact Hw|].
  intros E. apply (product_nonzero Hs Hw). rewrite <- E. ring.
Qed.

(** X11: in exact arithmetic, with [maximum] different from [minimum]
    and [smoothness + 2] non-zero, the mean of the transformed Beta
    distribution of a constructed object, [loc + scale * c1 / (c1 + c0)],
    is the weighted average
    [(minimum + smoothness * mode + maximum) / (smoothness + 2)]. *)
Theorem transformed_beta_mean (st : store Q)
    (mini mode maxi smooth : tensorlike Q) (validate nan_stats : bool)
    (nm : string) (self : PERT Q) :
  ~ read st maxi == read st mini ->
  ~ read st smooth + 2 == 0 ->
  __init__ st mini mode maxi smooth validate nan_stats nm = Ok self ->
  read st (loc self)
    + read st (scale self)
      * (read st (concentration1 self)
         / (read st (concentration1 self) + read st (concentration0 self)))
    == (read st mini + read st smooth * read st mode + read st maxi)
       / (read st smooth + 2).
Proof.
  intros Hne Hs Hinit. apply __init___Ok in Hinit.
  destruct Hinit as ((Hmin & _ & _ & _ & H1 & H0 & Hsc & _) & _).
  unfold loc, concentration1, concentration0, scale.
  rewrite Hmin, H1, H0, Hsc, read_convert.
  cbn [read add sub mul div lit exact]. change (inject_Z 1) with 1.
  assert (Hw : ~ read st maxi - read st mini == 0).
  { intros E. apply Hne. lra. }
  field. split; [exact Hs|]. split; [exact Hw|].
  intros E. apply (product_nonzero Hw Hs). rewrite <- E. ring.
Qed.

(** X12: [_variance] agrees with the composed distribution in exact
    arithmetic: when [mean()] returns the mean of the transformed Beta
    distribution, [loc + scale * c1 / (c1 + c0)], the value [_variance]
    computes from it is the variance of the transformed Beta distribution,
    [scale^2 * c1 * c0 / ((c1 + c0)^2 * (c1 + c0 + 1))], provided the
    maximum differs from the minimum and neither [smoothness + 2] nor
    [smoothness + 3] is zero. *)
Theorem variance_is_transformed_beta_variance (st : store Q)
    (mini mode maxi smooth : tensorlike Q) (validate nan_stats : bool)
    (nm : string) (self : PERT Q) (call : self_call Q) (kw : kwargs Q)
    (m : tensorlike Q) :
  __init__ st mini mode maxi smooth validate nan_stats nm = Ok self ->
  ~ read st maxi == read st mini ->
  ~ read st smooth + 2 == 0 ->
  ~ read st smooth + 3 == 0 ->
  call "mean"%string [] [] = Ok m ->
  read st m ==
    read st (loc self)
      + read st (scale self)
        * (read st (concentration1 self)
           / (read st (concentration1 self)
              + read st (concentration0 self))) ->
  exists v,
    _variance call self st kw = Ok v /\
    read st v ==
      read st (scale self) * read st (scale self)
      * (read st (concentration1 self) * read st (concentration0 self)
         / ((read st (concentration1 self) + read st (concentration0 self))
            * (read st (concentration1 self)
               + read st (concentration0 self))
            * (read st (concentration1 self) + read st (concentration0 self)
               + 1))).
Proof.
  intros Hinit Hne Hs2 Hs3 Hcall Hm. apply __init___Ok in Hinit.
  destruct Hinit as ((Hmin & _ & Hmax & Hs & H1 & H0 & Hsc & _) & _).
  unfold _variance. rewrite Hcall. cbn [bind].
  eexists. split; [reflexivity|].
  revert Hm.
  unfold loc, concentration1, concentration0, scale.
  unfold tl_div, tl_mul, tl_sub, tl_add.
  rewrite Hmin, Hmax, Hs, H1, H0, Hsc, !read_convert.
  cbn [read add sub mul div lit exact]. change (inject_Z 1) with 1.
  change (inject_Z 3) with 3.
  intros Hm. rewrite Hm.
  assert (Hw : ~ read st maxi - read st mini == 0).
  { intros E. apply Hne. lra. }
  field. split; [exact Hw|]. split; [|split; [|exact Hs3]].
  - intros E. apply (product_nonzero Hw Hs3). rewrite <- E. ring.
  - intros E. apply (product_nonzero Hw Hs2). rewrite <- E. ring.
Qed.

End Exact.

(** ** Shape of the concentrations *)

Section Shape.

Variable T : Type.
Context {D : Dtype T}.

(** X7: a mode as far from the minimum as from the maximum gives equal
    concentrations, in every arithmetic: when [mode - minimum] and
    [maximum - mode] are the same element, the [concentration1] and the
    [concentration0] of a constructed object are the same tensor. *)
Theorem centred_mode_equal_concentrations (st : store T)
    (mini mode maxi smooth : tensorlike T) (validate nan_stats : bool)
    (nm : string) (self : PERT T) :
  sub (read st mode) (read st mini) = sub (read st maxi) (read st mode) ->
  __init__ st mini mode maxi smooth validate nan_stats nm = Ok self ->
  concentration1 self = concentration0 self.
Proof.
  intros Hmid Hinit. apply __init___Ok in Hinit.
  destruct Hinit as ((_ & _ & _ & _ & H1 & H0 & _) & _).
  unfold concentration1, concentration0. rewrite H1, H0, Hmid. reflexivity.
Qed.

End Shape.

(** ** The standard case and binary32 *)

Lemma f32_nearest_finite (q : Q) (s : bool) (m : positive) (e : Z) :
  valid_binary f32_prec f32_emax (S754_finite s m e) = true ->
  Qle_bool
    (Qabs ((if s then - (inject_Z (Z.pos m) * Qpower 2 e)
            else inject_Z (Z.pos m) * Qpower 2 e) - q))
    (Qpower 2 (e - 1)) = true ->
  f32_nearest q (S754_finite s m e).
Proof.
  intros Hvalid Hnear. split; [exact Hvalid|].
  eexists. split; [reflexivity|].
  apply Qle_bool_iff. exact Hnear.
Qed.

(** C9: [PERT(mini=1., mode=7., maxi=11., smoothness=4.)] has
    [concentration1 = 3.4], [concentration0 = 2.6], [scale = 10] and
    [loc = 1]: exactly so in exact arithmetic, and in binary32 with the two
    concentrations the binary32 numbers nearest to 3.4 and to 2.6. *)
Theorem standard_case (validate : bool) :
  (exists self,
     standard Q validate = Ok self /\
     forall later : store Q,
       read later (concentration1 self) == 17 # 5 /\
       read later (concentration0 self) == 13 # 5 /\
       read later (scale self) == 10 /\
       read later (loc self) == 1) /\
  (exists self,
     standard float32 validate = Ok self /\
     forall later : store float32,
       f32_nearest (17 # 5) (read later (concentration1 self)) /\
       f32_nearest (13 # 5) (read later (concentration0 self)) /\
       read later (scale self) = lit 10 /\
       read later (loc self) = lit 1).
Proof.
  split.
  - destruct validate; (eexists; split; [reflexivity|]); intros later;
      repeat split; vm_compute; reflexivity.
  - destruct validate; (eexists; split; [reflexivity|]); intros later;
      (split; [|split; [|split]]);
      try (vm_compute; reflexivity).
    + change (f32_nearest (17 # 5) (S754_finite false 14260634 (-22))).
      apply f32_nearest_finite; vm_compute; reflexivity.
    + change (f32_nearest (13 # 5) (S754_finite false 10905190 (-22))).
      apply f32_nearest_finite; vm_compute; reflexivity.
    + change (f32_nearest (17 # 5) (S754_finite false 14260634 (-22))).
      apply f32_nearest_finite; vm_compute; reflexivity.
    + change (f32_nearest (13 # 5) (S754_finite false 10905190 (-22))).
      apply f32_nearest_finite; vm_compute; reflexivity.
Qed.

Section Binary32.

Lemma flush_idempotent (x : float32) : flush (flush x) = flush x.
Proof.
  destruct x as [s|s| |s m e]; try reflexivity.
  cbn [flush].
  destruct (Z.pos (digits2_pos m) + e <? -125)%Z eqn:E; cbn [flush];
    [reflexivity|rewrite E; reflexivity].
Qed.

Lemma flush_flushed (op : float32 -> float32 -> float32) (x y : float32) :
  flush (flushed op x y) = flushed op x y.
Proof. apply flush_idempotent. Qed.

Lemma flush_opp (x : float32) : flush (SFopp x) = SFopp (flush x).
Proof.
  destruct x as [s|s| |s m e]; try reflexivity.
  cbn [SFopp flush].
  destruct (Z.pos (digits2_pos m) + e <? -125)%Z; reflexivity.
Qed.

Lemma f32_finite_flush (x : float32) : f32_finite (flush x) = f32_finite x.
Proof.
  destruct x as [s|s| |s m e]; try reflexivity.
  cbn [flush]. destruct (Z.pos (digits2_pos m) + e <? -125)%Z; reflexivity.
Qed.

Lemma SFsub_diag (v : float32) :
  SFsub f32_prec f32_emax v v = S754_zero false \/
  SFsub f32_prec f32_emax v v = S754_nan.
Proof.
  destruct v as [s|s| |s m e].
  - left. destruct s; reflexivity.
  - right. destruct s; reflexivity.
  - right. reflexivity.
  - left. unfold SFsub. cbv zeta. rewrite Z.sub_diag. reflexivity.
Qed.

Lemma SFsub_opp (a b : float32) :
  SFsub f32_prec f32_emax (SFopp a) (SFopp b) = SFsub f32_prec f32_emax b a.
Proof.
  destruct a as [sa|sa| |sa ma ea], b as [sb|sb| |sb mb eb];
    try reflexivity;
    try (destruct sa; reflexivity);
    try (destruct sb; reflexivity);
    try (destruct sa, sb; reflexivity).
  unfold SFopp, SFsub. cbv zeta. rewrite (Z.min_comm ea eb).
  f_equal. destruct sa, sb; unfold cond_Zopp; cbn [negb]; lia.
Qed.

Lemma SFcompare_antisym (x y : float32) :
  SFcompare y x = option_map CompOpp (SFcompare x y).
Proof.
  destruct x as [sx|sx| |sx mx ex], y as [sy|sy| |sy my ey];
    try reflexivity;
    try (destruct sx; reflexivity);
    try (destruct sy; reflexivity);
    try (destruct sx, sy; reflexivity).
  unfold SFcompare.
  change (Pos.compare_cont Eq my mx) with (Pos.compare my mx).
  change (Pos.compare_cont Eq mx my) with (Pos.compare mx my).
  rewrite (Z.compare_antisym ex ey), (Pos.compare_antisym mx my).
  destruct sx, sy, (ex ?= ey)%Z, (mx ?= my)%positive; reflexivity.
Qed.

Lemma SFltb_asym (x y : float32) : SFltb x y = true -> SFltb y x = false.
Proof.
  unfold SFltb. rewrite (SFcompare_antisym x y).
  destruct (SFcompare x y) as [[| |]|]; cbn; congruence.
Qed.

Lemma SFltb_nan (x : float32) :
  SFltb S754_nan x = false /\ SFltb x S754_nan = false.
Proof. destruct x as [s|s| |s m e]; split; reflexivity. Qed.

Lemma f32_zero : f32_of_Z 0 = S754_zero false.
Proof. reflexivity. Qed.

(** X13: in binary32, validation keeps NaN and an empty range out: an
    object of fixed values with [validate_args=True] whose validation at
    construction reports no failure has no NaN among its four parameters,
    and its maximum is not its minimum. *)
Theorem validation_rejects_nan_and_empty_range (self : PERT float32)
    (st : store float32) :
  validate_args self = true ->
  is_ref (_min self) = false ->
  is_ref (_mod self) = false ->
  is_ref (_max self) = false ->
  is_ref (_smoothness self) = false ->
  raised (_parameter_control_dependencies self st true) = None ->
  read st (_min self) <> S754_nan /\
  read st (_mod self) <> S754_nan /\
  read st (_max self) <> S754_nan /\
  read st (_smoothness self) <> S754_nan /\
  read st (_max self) <> read st (_min self).
Proof.
  intros Hv Hmin Hmod Hmax Hs Hok.
  rewrite returns_iff, Hv, !gate_at_construction, Hmin, Hmod, Hmax, Hs
    in Hok.
  destruct Hok as [Hoff|(Hlo & Hhi & Hpos)]; [discriminate Hoff|].
  specialize (Hlo eq_refl eq_refl). specialize (Hhi eq_refl eq_refl).
  specialize (Hpos eq_refl).
  cbn [greater binary32] in Hlo, Hhi, Hpos.
  repeat split; intros E.
  - rewrite E in Hlo. cbn [flush] in Hlo.
    rewrite (proj1 (SFltb_nan _)) in Hlo. discriminate.
  - rewrite E in Hlo. cbn [flush] in Hlo.
    rewrite (proj2 (SFltb_nan _)) in Hlo. discriminate.
  - rewrite E in Hhi. cbn [flush] in Hhi.
    rewrite (proj2 (SFltb_nan _)) in Hhi. discriminate.
  - rewrite E in Hpos. cbn [flush] in Hpos.
    rewrite (proj2 (SFltb_nan _)) in Hpos. discriminate.
  - rewrite E in Hhi. apply SFltb_asym in Hlo. congruence.
Qed.

Lemma sub_diag (v : float32) :
  sub v v = S754_zero false \/ sub v v = S754_nan.
Proof.
  cbn [sub binary32]. unfold flushed.
  destruct (SFsub_diag (flush v)) as [E|E]; rewrite E; auto.
Qed.

(** A quotient by zero or by NaN is an infinity or NaN, and stays so
    when 1 is added. *)
Lemma one_plus_quotient_not_finite (n w : float32) :
  w = S754_zero false \/ w = S754_nan ->
  f32_finite (add (lit 1) (div n w)) = false.
Proof.
  cbn [add div lit binary32]. unfold flushed.
  intros [->| ->]; cbn [flush]; generalize (flush n); intros n';
    destruct n' as [s|s| |s m e]; reflexivity.
Qed.

(** X14: in binary32, a maximum equal to the minimum is not refused when
    [validate_args] is off, and the object the constructor returns for it,
    whatever the mode and the smoothness are, has a scale of zero (or NaN)
    and no concentration that is a finite number. *)
Theorem empty_range_is_not_finite (st : store float32)
    (mini mode maxi smooth : tensorlike float32) (nan_stats : bool)
    (nm : string) :
  read st maxi = read st mini ->
  (exists self,
     __init__ st mini mode maxi smooth false nan_stats nm = Ok self) /\
  forall (validate : bool) (self : PERT float32),
    __init__ st mini mode maxi smooth validate nan_stats nm = Ok self ->
    forall later : store float32,
      f32_finite (read later (concentration1 self)) = false /\
      f32_finite (read later (concentration0 self)) = false /\
      (read later (scale self) = S754_zero false \/
       read later (scale self) = S754_nan).
Proof.
  intros Heq. split.
  { apply __init___returns. left. reflexivity. }
  intros validate self Hinit later. apply __init___Ok in Hinit.
  destruct Hinit as ((_ & _ & _ & _ & H1 & H0 & Hsc & _) & _).
  unfold concentration1, concentration0, scale. rewrite H1, H0, Hsc.
  cbn [read]. rewrite Heq.
  pose proof (sub_diag (read st mini)) as Hw.
  split; [|split; [|exact Hw]];
    apply one_plus_quotient_not_finite; exact Hw.
Qed.

(** X15: in binary32, infinite bounds pass validation and give no
    distribution: with the minimum minus infinity, the maximum plus
    infinity, a finite mode and a positive smoothness, the constructor
    with [validate_args=True] returns an object, having made the three
    checks, and both concentrations of that object are NaN. *)
Theorem infinite_bounds_pass_validation (st : store float32)
    (mode smooth : float32) (nan_stats : bool) (nm : string) :
  f32_finite mode = true ->
  greater smooth (lit 0) = true ->
  exists self,
    __init__ st (Tensor (S754_infinity true)) (Tensor mode)
      (Tensor (S754_infinity false)) (Tensor smooth) true nan_stats nm
      = Ok self /\
    performed (_parameter_control_dependencies self st true) =
      [msg_mode; msg_maximum; msg_smoothness] /\
    read st (concentration1 self) = S754_nan /\
    read st (concentration0 self) = S754_nan.
Proof.
  intros Hmode Hs.
  assert (Hlo : greater mode (S754_infinity true) = true).
  { cbn [greater binary32]. rewrite <- f32_finite_flush in Hmode.
    destruct (flush mode) as [s|s| |s m e]; try discriminate Hmode;
      reflexivity. }
  assert (Hhi : @greater float32 _ (S754_infinity false) mode = true).
  { cbn [greater binary32]. rewrite <- f32_finite_flush in Hmode.
    destruct (flush mode) as [s|s| |s m e]; try discriminate Hmode;
      reflexivity. }
  assert (Hret : exists self,
            __init__ st (Tensor (S754_infinity true)) (Tensor mode)
              (Tensor (S754_infinity false)) (Tensor smooth) true nan_stats
              nm = Ok self).
  { apply __init___returns. right. cbn [read]. repeat split; auto. }
  destruct Hret as [self Hinit]. exists self. split; [exact Hinit|].
  apply __init___Ok in Hinit.
  destruct Hinit
    as ((Hmin & Hmod & Hmax & Hsm & H1 & H0 & _ & _ & _ & Hv) & _).
  split.
  - destruct (_parameter_control_dependencies_on self st true Hv)
      as [Hm _].
    cbv zeta in Hm. unfold performed. rewrite Hm, Hmin, Hmod, Hmax, Hsm.
    cbn [convert_nonref_to_tensor gate is_ref xorb andb negb read].
    rewrite Hlo, Hhi. reflexivity.
  - unfold concentration1, concentration0. rewrite H1, H0.
    cbn [read add sub mul div lit binary32]. unfold flushed.
    cbn [greater lit binary32] in Hs. rewrite f32_zero in Hs.
    cbn [flush] in Hs.
    rewrite <- f32_finite_flush in Hmode.
    rewrite !flush_idempotent.
    destruct (flush mode) as [sm|sm| |sm mm em]; try discriminate Hmode;
      destruct (flush smooth) as [ss|ss| |ss ms es]; try discriminate Hs;
      destruct ss; try discriminate Hs;
      split; reflexivity.
Qed.

(** The quotient of a zero by a finite number other than zero is a
    zero, and adding it to 1 gives 1. *)
Lemma one_plus_zero_quotient (z d w : float32) (sign : bool) :
  z = S754_zero sign ->
  f32_finite d = true ->
  flush w = w ->
  f32_finite w = true ->
  SFeqb w (lit 0) = false ->
  add (lit 1) (div (mul z d) w) = lit 1.
Proof.
  intros -> Hd Hfw Hw Hnz.
  cbn [add div mul lit binary32]. unfold flushed.
  rewrite !flush_idempotent, Hfw. cbn [flush].
  rewrite <- f32_finite_flush in Hd.
  destruct (flush d) as [sd|sd| |sd md ed]; try discriminate Hd;
    destruct w as [sw|sw| |sw mw ew]; try discriminate Hw;
    try discriminate Hnz; reflexivity.
Qed.

(** X16: in binary32, a smoothness of zero (of either sign) gives both
    concentrations of a constructed object exactly 1, the uniform shape,
    whenever the three differences [mode - minimum], [maximum - mode] and
    [maximum - minimum] are finite and the last one is not zero. *)
Theorem zero_smoothness_is_flat (st : store float32)
    (mini mode maxi smooth : tensorlike float32) (validate nan_stats : bool)
    (nm : string) (sign : bool) (self : PERT float32) :
  read st smooth = S754_zero sign ->
  f32_finite (sub (read st mode) (read st mini)) = true ->
  f32_finite (sub (read st maxi) (read st mode)) = true ->
  f32_finite (sub (read st maxi) (read st mini)) = true ->
  SFeqb (sub (read st maxi) (read st mini)) (lit 0) = false ->
  __init__ st mini mode maxi smooth validate nan_stats nm = Ok self ->
  forall later : store float32,
    read later (concentration1 self) = lit 1 /\
    read later (concentration0 self) = lit 1.
Proof.
  intros Hs Hlo Hhi Hw Hnz Hinit later. apply __init___Ok in Hinit.
  destruct Hinit as ((_ & _ & _ & _ & H1 & H0 & _) & _).
  unfold concentration1, concentration0. rewrite H1, H0. cbn [read].
  assert (Hfw : flush (sub (read st maxi) (read st mini)) =
                sub (read st maxi) (read st mini))
    by apply flush_flushed.
  split; eapply one_plus_zero_quotient; eassumption.
Qed.

(** X17: in binary32, reflecting the parameters about zero swaps the two
    concentrations bit for bit: an object constructed from
    [(-maxi, -mode, -mini, smoothness)] has the [concentration1] that the
    object constructed from [(mini, mode, maxi, smoothness)] has as
    [concentration0], and the other way round, and the same scale. *)
Theorem mirrored_parameters_swap_concentrations (st : store float32)
    (mini mode maxi smooth : tensorlike float32)
    (validate validate' nan_stats : bool) (nm : string)
    (self mirrored : PERT float32) :
  __init__ st mini mode maxi smooth validate nan_stats nm = Ok self ->
  __init__ st (Tensor (f32_opp (read st maxi)))
    (Tensor (f32_opp (read st mode))) (Tensor (f32_opp (read st mini)))
    smooth validate' nan_stats nm = Ok mirrored ->
  concentration1 mirrored = concentration0 self /\
  concentration0 mirrored = concentration1 self /\
  scale mirrored = scale self.
Proof.
  intros Hinit Hinit'. apply __init___Ok in Hinit, Hinit'.
  destruct Hinit as ((_ & _ & _ & _ & H1 & H0 & Hsc & _) & _).
  destruct Hinit' as ((_ & _ & _ & _ & H1' & H0' & Hsc' & _) & _).
  unfold concentration1, concentration0, scale.
  rewrite H1, H0, Hsc, H1', H0', Hsc'.
  cbn [read sub binary32]. unfold flushed, f32_opp.
  rewrite !flush_opp, !SFsub_opp. repeat split.
Qed.

End Binary32.

(** ** Counterexamples *)

(** C2 as the claim states it, with the check performed as soon as the
    mode or the minimum passes the guard, fails on
    [PERT(mini=v, mode=0., maxi=11., validate_args=True)] where [v] is a
    variable holding [1.]: the mode is a fixed value and the minimum a
    reference, the mode is not greater than the minimum, and the check is
    performed neither at construction, which returns the object, nor
    afterwards. *)
Lemma mixed_reference_skips_check :
  exists self,
    mixed = Ok self /\
    validate_args self = true /\
    gate true (_mod self) || gate true (_min self) = true /\
    gate false (_mod self) || gate false (_min self) = true /\
    greater (read one_variable (_mod self)) (read one_variable (_min self))
      = false /\
    ~ In msg_mode
        (performed (_parameter_control_dependencies self one_variable true)) /\
    ~ In msg_mode
        (performed (_parameter_control_dependencies self one_variable false)).
Proof.
  eexists. split; [reflexivity|].
  cbn. repeat split; try reflexivity.
  - intros [H|[H|[]]]; discriminate.
  - intros [].
Qed.

(** C3 as the claim states it, with every applicable failure reported,
    fails where every invariant is broken at once.  At construction,
    [PERT(mini=5., mode=3., maxi=2., smoothness=-1., validate_args=True)]
    raises the failure of the first check and nothing else.  On access, the
    object built on four variables, after they have been assigned
    [5], [3], [2] and [-1]: the guards of the three checks hold and the
    three conditions are violated, and the run makes the first check only
    and reports its failure only. *)
Lemma first_failure_only :
  broken = Raise (InvalidArgumentError msg_mode) /\
  validate_args by_reference = true /\
  (gate false (_mod by_reference) && gate false (_min by_reference) = true /\
   gate false (_mod by_reference) && gate false (_max by_reference) = true /\
   gate false (_smoothness by_reference) = true) /\
  (greater (read all_broken (_mod by_reference))
           (read all_broken (_min by_reference)) = false /\
   greater (read all_broken (_max by_reference))
           (read all_broken (_mod by_reference)) = false /\
   greater (read all_broken (_smoothness by_reference)) (lit 0) = false) /\
  performed (_parameter_control_dependencies by_reference all_broken false)
    = [msg_mode] /\
  raised (_parameter_control_dependencies by_reference all_broken false)
    = Some (InvalidArgumentError msg_mode).
Proof. repeat split. Qed.

(** C8 as stated fails in binary32: for
    [PERT(mini=0., mode=1., maxi=2., smoothness=2 ** -30)] the parameters
    are ordered and the smoothness is positive, and [concentration1] is
    [1 + 2 ** -31] rounded, which is [1]: it is not greater than 1. *)
Lemma flat_concentration_is_one :
  exists self,
    flat = Ok self /\
    greater (read no_variables (_mod self)) (read no_variables (_min self))
      = true /\
    greater (read no_variables (_max self)) (read no_variables (_mod self))
      = true /\
    greater (read no_variables (_smoothness self)) (lit 0) = true /\
    read no_variables (concentration1 self) = lit 1 /\
    greater (read no_variables (concentration1 self)) (lit 1) = false.
Proof.
  eexists. split; [reflexivity|].
  repeat split; vm_compute; reflexivity.
Qed.


(** ** Instances of the theorems with hypotheses *)

Lemma checks_stop_at_first_failure_witness :
  validate_args by_reference = true /\
  performed (_parameter_control_dependencies by_reference all_broken false)
    = [msg_mode] /\
  failure (_parameter_control_dependencies by_reference all_broken false)
    = Some msg_mode.
Proof.
  split; [reflexivity|].
  destruct (@checks_stop_at_first_failure Q exact by_reference all_broken
              false eq_refl) as (Hp & Hf & _).
  rewrite Hp, Hf. split; reflexivity.
Defined.

Lemma concentrations_above_one_exact_witness :
  (1 < 7 /\ 7 < 11 /\ 0 < 4) /\
  exists self,
    standard Q true = Ok self /\
    1 < read no_variables (concentration1 self) /\
    1 < read no_variables (concentration0 self).
Proof.
  split; [repeat split; reflexivity|].
  destruct (@concentrations_above_one_exact no_variables
              (PyFloat (whole 1)) (PyFloat (whole 7)) (PyFloat (whole 11))
              (PyFloat (whole 4)) true false "PERT"
              eq_refl eq_refl eq_refl) as (self & Hinit & Hgt).
  exists self. split; [exact Hinit|]. exact (Hgt no_variables).
Defined.



Lemma stddev_passes_keywords_as_name_witness :
  standard float32 false = Ok standard_f32 /\
  tf_name_scope (T := float32) (PyStr "stddev") = true /\
  tf_name_scope (T := float32) (PyDict []) = false /\
  query f32_sqrt tf_name_scope composed 2 standard_f32 no_variables
    "stddev" [] [] = Raise scope_error.
Proof.
  split; [reflexivity|]. split; [reflexivity|]. split; [reflexivity|].
  destruct (@stddev_passes_keywords_as_name float32 binary32 f32_sqrt
              tf_name_scope composed 0 standard_f32 no_variables []
              eq_refl eq_refl) as (_ & _ & Hraise & _).
  exact (Hraise eq_refl).
Defined.

Lemma variance_formula_witness :
  standard float32 false = Ok standard_f32 /\
  tf_name_scope (T := float32) (PyStr "variance") = true /\
  query f32_sqrt tf_name_scope composed 1 standard_f32 no_variables
    "mean" [] [] = Ok (Tensor (S754_finite false 13981013 (-21))) /\
  query f32_sqrt tf_name_scope composed 2 standard_f32 no_variables
    "variance" [] [] = Ok (Tensor (S754_finite false 14713352 (-22))).
Proof.
  assert (Hmean :
    query f32_sqrt tf_name_scope composed 1 standard_f32 no_variables
      "mean" [] [] = Ok (Tensor (S754_finite false 13981013 (-21))))
    by reflexivity.
  split; [reflexivity|]. split; [reflexivity|]. split; [exact Hmean|].
  rewrite (proj1 (@variance_formula float32 binary32 f32_sqrt tf_name_scope
                    composed 0 standard_f32 no_variables []
                    (Tensor (S754_finite false 13981013 (-21)))
                    eq_refl Hmean)).
  reflexivity.
Defined.

Lemma mode_round_trip_witness :
  tf_name_scope (T := float32) (PyStr "mode") = true /\
  standard float32 true = Ok standard_checked_f32 /\
  query f32_sqrt tf_name_scope composed 1 standard_checked_f32
    no_variables "mode" [] [] = Ok (Tensor (lit 7)).
Proof.
  split; [reflexivity|]. split; [reflexivity|].
  destruct (@mode_round_trip float32 binary32 f32_sqrt tf_name_scope composed
              no_variables (PyFloat (whole 1)) (PyFloat (whole 7))
              (PyFloat (whole 11)) (PyFloat (whole 4)) true false "PERT"
              standard_checked_f32 eq_refl eq_refl)
    as (_ & _ & Hmode).
  destruct (Hmode 0%nat no_variables []) as (_ & _ & _ & Hask).
  exact (Hask eq_refl).
Defined.

Lemma fixed_parameters_validated_once_witness :
  validate_args standard_checked = true /\
  raised (_parameter_control_dependencies standard_checked no_variables
            true) = None /\
  _parameter_control_dependencies standard_checked no_variables false
    = ret [].
Proof.
  destruct (@fixed_parameters_validated_once Q exact standard_checked
              no_variables eq_refl eq_refl eq_refl eq_refl eq_refl)
    as [Hiff Hlater].
  split; [reflexivity|]. split; [|exact Hlater].
  apply Hiff. repeat split; reflexivity.
Defined.

Lemma references_validated_on_access_witness :
  validate_args by_reference = true /\
  is_ref (_min by_reference) = true /\
  _parameter_control_dependencies by_reference four_variables true
    = ret [] /\
  performed (_parameter_control_dependencies by_reference four_variables
               false) = [msg_mode; msg_maximum; msg_smoothness] /\
  failure (_parameter_control_dependencies by_reference raised_minimum
             false) = Some msg_mode.
Proof.
  destruct (@references_validated_on_access Q exact by_reference
              four_variables four_variables
              eq_refl eq_refl eq_refl eq_refl eq_refl)
    as (Hinit & _ & Hthree & _).
  destruct (@references_validated_on_access Q exact by_reference
              four_variables raised_minimum
              eq_refl eq_refl eq_refl eq_refl eq_refl)
    as (_ & _ & _ & Hfail).
  split; [reflexivity|]. split; [reflexivity|].
  split; [exact Hinit|]. split; [exact (Hthree eq_refl)|].
  rewrite Hfail. reflexivity.
Defined.

Lemma no_check_in_both_phases_witness :
  In msg_mode
    (performed
       (_parameter_control_dependencies standard_checked no_variables true))
  /\
  ~ In msg_mode
      (performed
         (_parameter_control_dependencies standard_checked no_variables
            false)).
Proof.
  assert (Hin : In msg_mode
                  (performed
                     (_parameter_control_dependencies standard_checked
                        no_variables true))).
  { left. reflexivity. }
  split; [exact Hin|].
  exact (@no_check_in_both_phases Q exact standard_checked no_variables
           no_variables msg_mode Hin).
Defined.

Lemma checks_across_phases_witness :
  validate_args by_reference = true /\
  (In msg_mode
     (performed
        (_parameter_control_dependencies by_reference four_variables true))
   \/
   In msg_mode
     (performed
        (_parameter_control_dependencies by_reference four_variables
           false))).
Proof.
  split; [reflexivity|].
  destruct (@checks_across_phases Q exact by_reference four_variables
              four_variables eq_refl eq_refl eq_refl) as (Hmode & _ & _).
  apply Hmode. reflexivity.
Defined.

Lemma centred_mode_equal_concentrations_witness :
  sub (lit 6) (lit 1) = sub (lit 11) (lit 6) :> float32 /\
  exists self,
    __init__ no_variables (Tensor (lit 1)) (Tensor (lit 6))
      (Tensor (lit 11)) (Tensor (lit 4)) true false "PERT" = Ok self /\
    concentration1 self = concentration0 self.
Proof.
  split; [reflexivity|].
  eexists. split; [reflexivity|].
  exact (@centred_mode_equal_concentrations float32 binary32 no_variables
           (Tensor (f32_of_Z 1)) (Tensor (f32_of_Z 6))
           (Tensor (f32_of_Z 11)) (Tensor (f32_of_Z 4)) true false "PERT"
           _ eq_refl eq_refl).
Defined.

Lemma validated_object_is_well_formed_witness :
  standard Q true = Ok standard_checked /\
  1 < read no_variables (concentration1 standard_checked) /\
  1 < read no_variables (concentration0 standard_checked) /\
  0 < read no_variables (scale standard_checked).
Proof.
  split; [reflexivity|].
  exact (@validated_object_is_well_formed no_variables
           (PyFloat (whole 1)) (PyFloat (whole 7)) (PyFloat (whole 11))
           (PyFloat (whole 4)) false "PERT" standard_checked
           eq_refl eq_refl eq_refl eq_refl eq_refl no_variables).
Defined.

Lemma concentrations_monotone_in_mode_witness :
  (1 < 11 /\ 0 < 4 /\ 3 < 7) /\
  exists self1,
    __init__ no_variables (Tensor 1) (Tensor 3) (Tensor 11) (Tensor 4)
      true false "PERT" = Ok self1 /\
    __init__ no_variables (Tensor 1) (Tensor 7) (Tensor 11) (Tensor 4)
      true false "PERT" = Ok standard_checked /\
    read no_variables (concentration1 self1)
      < read no_variables (concentration1 standard_checked) /\
    read no_variables (concentration0 standard_checked)
      < read no_variables (concentration0 self1).
Proof.
  split; [repeat split; reflexivity|].
  eexists. split; [reflexivity|]. split; [reflexivity|].
  exact (@concentrations_monotone_in_mode no_variables (Tensor 1)
           (Tensor 3) (Tensor 7) (Tensor 11) (Tensor 4) true false "PERT"
           _ standard_checked eq_refl eq_refl eq_refl eq_refl eq_refl
           no_variables).
Defined.

Lemma transformed_beta_mode_witness :
  (~ 11 == 1 /\ ~ 4 == 0) /\
  standard Q false = Ok standard_exact /\
  read no_variables (loc standard_exact)
    + read no_variables (scale standard_exact)
      * ((read no_variables (concentration1 standard_exact) - 1)
         / (read no_variables (concentration1 standard_exact)
            + read no_variables (concentration0 standard_exact) - 2))
    == 7.
Proof.
  assert (Hne : ~ 11 == 1) by discriminate.
  assert (Hs : ~ 4 == 0) by discriminate.
  split; [split; assumption|]. split; [reflexivity|].
  exact (@transformed_beta_mode no_variables (Tensor 1) (Tensor 7)
           (Tensor 11) (Tensor 4) false false "PERT" standard_exact
           Hne Hs eq_refl).
Defined.

Lemma transformed_beta_mean_witness :
  (~ 11 == 1 /\ ~ 4 + 2 == 0) /\
  standard Q false = Ok standard_exact /\
  read no_variables (loc standard_exact)
    + read no_variables (scale standard_exact)
      * (read no_variables (concentration1 standard_exact)
         / (read no_variables (concentration1 standard_exact)
            + read no_variables (concentration0 standard_exact)))
    == (1 + 4 * 7 + 11) / (4 + 2).
Proof.
  assert (Hne : ~ 11 == 1) by discriminate.
  assert (Hs : ~ 4 + 2 == 0) by discriminate.
  split; [split; assumption|]. split; [reflexivity|].
  exact (@transformed_beta_mean no_variables (Tensor 1) (Tensor 7)
           (Tensor 11) (Tensor 4) false false "PERT" standard_exact
           Hne Hs eq_refl).
Defined.

Lemma variance_is_transformed_beta_variance_witness :
  standard Q false = Ok standard_exact /\
  (exists m,
     query (fun x : Q => x) tf_name_scope composed 1 standard_exact
       no_variables "mean" [] [] = Ok m /\
     read no_variables m == 20 # 3) /\
  exists v,
    _variance (query (fun x : Q => x) tf_name_scope composed 1
                 standard_exact no_variables)
      standard_exact no_variables [] = Ok v /\
    read no_variables v == 10 * 10 * ((17 # 5) * (13 # 5) / (6 * 6 * 7)).
Proof.
  assert (Hne : ~ 11 == 1) by discriminate.
  assert (Hs2 : ~ 4 + 2 == 0) by discriminate.
  assert (Hs3 : ~ 4 + 3 == 0) by discriminate.
  pose (m := Tensor
               (read no_variables (loc standard_exact)
                + read no_variables (scale standard_exact)
                  * (read no_variables (concentration1 standard_exact)
                     / (read no_variables (concentration1 standard_exact)
                        + read no_variables
                            (concentration0 standard_exact))))).
  assert (Hmean :
    query (fun x : Q => x) tf_name_scope composed 1 standard_exact
      no_variables "mean" [] [] = Ok m)
    by reflexivity.
  split; [reflexivity|].
  split; [exists m; split; [exact Hmean|reflexivity]|].
  destruct (@variance_is_transformed_beta_variance no_variables (Tensor 1)
              (Tensor 7) (Tensor 11) (Tensor 4) false false "PERT"
              standard_exact
              (query (fun x : Q => x) tf_name_scope composed 1
                 standard_exact no_variables)
              [] m eq_refl Hne Hs2 Hs3 Hmean (Qeq_refl _))
    as (v & Hv & Hval).
  exists v. split; [exact Hv|].
  rewrite Hval. reflexivity.
Defined.

Lemma validation_rejects_nan_and_empty_range_witness :
  standard float32 true = Ok standard_checked_f32 /\
  raised (_parameter_control_dependencies standard_checked_f32 no_variables
            true) = None /\
  read no_variables (_max standard_checked_f32) <>
    read no_variables (_min standard_checked_f32).
Proof.
  split; [reflexivity|]. split; [reflexivity|].
  exact (proj2 (proj2 (proj2 (proj2
           (@validation_rejects_nan_and_empty_range standard_checked_f32
              no_variables eq_refl eq_refl eq_refl eq_refl eq_refl
              eq_refl))))).
Defined.

Lemma empty_range_is_not_finite_witness :
  exists self,
    __init__ no_variables (Tensor (lit 1)) (Tensor (lit 7)) (Tensor (lit 1))
      (Tensor (lit 4)) false false "PERT" = Ok self /\
    f32_finite (read no_variables (concentration1 self)) = false /\
    f32_finite (read no_variables (concentration0 self)) = false.
Proof.
  destruct (@empty_range_is_not_finite no_variables (Tensor (f32_of_Z 1))
              (Tensor (f32_of_Z 7)) (Tensor (f32_of_Z 1))
              (Tensor (f32_of_Z 4)) false "PERT" eq_refl)
    as ((self & Hinit) & Hnot).
  exists self. split; [exact Hinit|].
  destruct (Hnot false self Hinit no_variables) as (H1 & H0 & _).
  split; assumption.
Defined.

Lemma infinite_bounds_pass_validation_witness :
  exists self,
    __init__ no_variables (Tensor (S754_infinity true)) (Tensor (lit 7))
      (Tensor (S754_infinity false)) (Tensor (lit 4)) true false "PERT"
      = Ok self /\
    read no_variables (concentration1 self) = S754_nan.
Proof.
  destruct (@infinite_bounds_pass_validation no_variables (f32_of_Z 7)
              (f32_of_Z 4) false "PERT" eq_refl eq_refl)
    as (self & Hinit & _ & H1 & _).
  exists self. split; assumption.
Defined.

Lemma zero_smoothness_is_flat_witness :
  exists self,
    __init__ no_variables (Tensor (lit 1)) (Tensor (lit 7)) (Tensor (lit 11))
      (Tensor (lit 0)) false false "PERT" = Ok self /\
    read no_variables (concentration1 self) = lit 1 /\
    read no_variables (concentration0 self) = lit 1.
Proof.
  eexists. split; [reflexivity|].
  exact (@zero_smoothness_is_flat no_variables (Tensor (f32_of_Z 1))
           (Tensor (f32_of_Z 7)) (Tensor (f32_of_Z 11))
           (Tensor (f32_of_Z 0)) false false "PERT" false _
           eq_refl eq_refl eq_refl eq_refl eq_refl eq_refl no_variables).
Defined.

Lemma mirrored_parameters_swap_concentrations_witness :
  exists mirrored,
    __init__ no_variables (Tensor (lit (-11))) (Tensor (lit (-7)))
      (Tensor (lit (-1))) (Tensor (lit 4)) true false "PERT"
      = Ok mirrored /\
    concentration1 mirrored = concentration0 standard_checked_f32 /\
    concentration0 mirrored = concentration1 standard_checked_f32.
Proof.
  eexists. split; [reflexivity|].
  destruct (@mirrored_parameters_swap_concentrations no_variables
              (PyFloat (whole 1)) (PyFloat (whole 7)) (PyFloat (whole 11))
              (PyFloat (whole 4)) true true false "PERT"
              standard_checked_f32 _ eq_refl eq_refl) as (H1 & H0 & _).
  split; assumption.
Defined.

Lemma construction_raises_first_failure_witness :
  __init__ no_variables (PyFloat (whole 1)) (PyFloat (whole 0))
    (PyFloat (whole 11)) (PyFloat (whole 4)) true false "PERT"
    = Raise (InvalidArgumentError msg_mode) :> result (PERT Q) /\
  __init__ no_variables (PyFloat (whole 1)) (PyFloat (whole 7))
    (PyFloat (whole 11)) (PyFloat (whole (-1))) true false "PERT"
    = Raise (InvalidArgumentError msg_smoothness) :> result (PERT Q).
Proof.
  split.
  - exact (proj1 (@construction_raises_first_failure Q exact no_variables
                    (PyFloat (whole 1)) (PyFloat (whole 0))
                    (PyFloat (whole 11)) (PyFloat (whole 4)) false "PERT"
                    eq_refl eq_refl eq_refl eq_refl) eq_refl).
  - exact (proj2 (proj2 (@construction_raises_first_failure Q exact
                           no_variables (PyFloat (whole 1))
                           (PyFloat (whole 7)) (PyFloat (whole 11))
                           (PyFloat (whole (-1))) false "PERT"
                           eq_refl eq_refl eq_refl eq_refl))
             eq_refl eq_refl eq_refl).
Defined.
